(** * Local-LLM-Chat: context assembly, streaming relay and history rewind

    A shallow embedding of [main.py]: the [chatmessage] table and its
    queries, the context-building walk and the line-by-line relay of
    [stream_ollama_response], and the rewind performed by
    [regenerate_from_prompt].

    Conventions of the embedding.
    - A Python [str] is a [string]; every character counts one in [len].
    - A [datetime] is an integer number of clock ticks ([Z]).
    - The [chatmessage] table is the list of its rows, oldest insert first.
    - What the database and the clock hand out on an insert (the primary
      key, the value of [datetime.utcnow]) is an input of the operation,
      a [Stamp].
    - The upstream backend is a function from the posted payload to the
      response it sends; a body is given by what [decode()] does on its
      bytes and as the lines [aiter_lines()] yields, each line with the
      outcome of [json.loads] on it.
    - A primary key that a request brings is any integer; SQLite binds
      only those of the signed 64-bit range.
    - A raised Python exception that nothing catches ends the generator;
      what was yielded and committed before it stays.
    - The consumer reads the event stream to its end, and the connection
      to the backend and the database do not fail. *)

From Stdlib Require Import ZArith List String Ascii Bool Lia.
From Stdlib Require Import Permutation Sorted.
Import ListNotations.

Open Scope Z_scope.

(* ================================================================== *)
(** * 1. Data model *)
(* ================================================================== *)

(** [class ChatMessage(SQLModel, table=True)]; a stored row always has
    its primary key. *)
Record ChatMessage : Type := mkChatMessage {
  id : Z;
  role : string;
  content : string;
  created_at : Z;
  conversation_id : option Z
}.

(** The [chatmessage] table. *)
Definition Table : Type := list ChatMessage.

(** [class ChatRequest(SQLModel)]. *)
Module ChatRequest.
Record t : Type := mk {
  prompt : string;
  conversation_id : option Z;
  model : string
}.
End ChatRequest.

(** [class RegenerateRequest(SQLModel)]. *)
Module RegenerateRequest.
Record t : Type := mk {
  message_id : Z;
  new_prompt : string;
  model : string
}.
End RegenerateRequest.

(** One entry [{"role": ..., "content": ...}] of [messages_for_ollama]. *)
Module OllamaMessage.
Record t : Type := mk {
  role : string;
  content : string
}.
End OllamaMessage.

(** The JSON body of the POST to [/api/chat]. *)
Module ChatPayload.
Record t : Type := mk {
  model : string;
  messages : list OllamaMessage.t;
  stream : bool
}.
End ChatPayload.

(** A value returned by [json.loads]; an object is kept as its list of
    bindings and read with [dict_get]. Numbers are integers here: the
    relay only asks whether a number is zero. *)
#[local] Unset Elimination Schemes.
Inductive json : Type :=
  | JNull
  | JBool (b : bool)
  | JNum (n : Z)
  | JStr (s : string)
  | JArr (items : list json)
  | JObj (fields : list (string * json)).
#[local] Set Elimination Schemes.

(** One element of [response.aiter_lines()], with what [json.loads]
    does on it. *)
Inductive Line : Type :=
  | Blank                     (* the empty string: [if line:] fails *)
  | Garbled                   (* [json.loads] raises [JSONDecodeError] *)
  | Parsed (chunk : json).    (* [json.loads] returns [chunk] *)

(** [error_content.decode()] on the bytes of the body. *)
Inductive Decoded : Type :=
  | Text (s : string)    (* the bytes are the UTF-8 encoding of [s] *)
  | NotUtf8.             (* [decode()] raises [UnicodeDecodeError] *)

(** The upstream response as the relay reads it. *)
Module Response.
Record t : Type := mk {
  status_code : Z;
  error_content : Decoded;   (* [(await response.aread()).decode()] *)
  aiter_lines : list Line
}.
End Response.

(** The outward events, one per [yield]; the [data: ...] framing and
    [json.dumps] are left out. *)
Inductive Event : Type :=
  | EvInitial (user_message : ChatMessage) (conv : option Z)
  | EvContent (content_piece : string)
  | EvDone (message : ChatMessage)
  | EvError (error : string).

(** What one insert receives from its environment. *)
Record Stamp : Type := mkStamp {
  assigned_id : Z;    (* primary key given by the database *)
  utcnow : Z          (* [datetime.utcnow()] when the object is built *)
}.

(** Exceptions that nothing in [main.py] catches: those of the relay
    loop that [except json.JSONDecodeError] lets through, the one of
    [decode()], and the one of binding an integer that SQLite cannot
    hold. *)
Inductive PyError : Type :=
  | AttributeError
  | TypeError
  | UnicodeDecodeError
  | OverflowError.

Inductive Exit : Type :=
  | Finished
  | Raised (e : PyError).

(** What [session.get(Model, pk)] does. *)
Inductive Fetch (A : Type) : Type :=
  | Found (row : A)    (* the row with that key *)
  | Absent             (* [None]: no row has that key *)
  | Overflow.          (* binding [pk] raises [OverflowError] *)

Arguments Found {A} row.
Arguments Absent {A}.
Arguments Overflow {A}.

(** What a block of an endpoint gives back: it may
    [raise HTTPException(status_code=404, detail=...)], or let an
    exception escape, which the server answers with status 500. *)
Inductive Result (A : Type) : Type :=
  | Raise404 (detail : string)
  | Raises (e : PyError)
  | Returns (value : A).

Arguments Raise404 {A} detail.
Arguments Raises {A} e.
Arguments Returns {A} value.

(* ================================================================== *)
(** * 2. The Store: queries and writes *)
(* ================================================================== *)

(** [ChatMessage.conversation_id == conversation_id]; comparing with
    [None] is rendered [IS NULL]. *)
Definition conv_eqb (a b : option Z) : bool :=
  match a, b with
  | Some x, Some y => x =? y
  | None, None => true
  | _, _ => false
  end.

Definition in_conversation (cid : option Z) (m : ChatMessage) : bool :=
  conv_eqb (conversation_id m) cid.

(** The integers SQLite binds: the signed 64-bit range. *)
Definition fits_int64 (n : Z) : bool :=
  (- 2 ^ 63 <=? n) && (n <? 2 ^ 63).

(** [session.get(ChatMessage, pk)]. *)
Definition session_get (table : Table) (pk : Z) : Fetch ChatMessage :=
  if fits_int64 pk then
    match find (fun m => id m =? pk) table with
    | Some m => Found m
    | None => Absent
    end
  else Overflow.

(** [ORDER BY]: a stable insertion sort; rows with equal keys keep the
    order of the table. *)
Fixpoint insert_by (le : ChatMessage -> ChatMessage -> bool)
    (x : ChatMessage) (l : list ChatMessage) : list ChatMessage :=
  match l with
  | [] => [x]
  | y :: l' => if le x y then x :: l else y :: insert_by le x l'
  end.

Definition order_by (le : ChatMessage -> ChatMessage -> bool)
    (l : list ChatMessage) : list ChatMessage :=
  fold_right (insert_by le) [] l.

(** The order of a query as a relation, to say that a list is sorted. *)
Definition holds (le : ChatMessage -> ChatMessage -> bool)
    (x y : ChatMessage) : Prop :=
  le x y = true.

Definition created_at_asc (x y : ChatMessage) : bool :=
  created_at x <=? created_at y.

Definition created_at_desc (x y : ChatMessage) : bool :=
  created_at y <=? created_at x.

(** [get_conversation_messages]: the conversation's messages, oldest
    first. *)
Definition get_conversation_messages (table : Table) (cid : option Z)
    : list ChatMessage :=
  order_by created_at_asc (filter (in_conversation cid) table).

(** The [history] query of [stream_ollama_response]: newest first. *)
Definition select_history (table : Table) (cid : option Z)
    : list ChatMessage :=
  order_by created_at_desc (filter (in_conversation cid) table).

(** [session.add(m); session.commit(); session.refresh(m)] for a
    freshly built [ChatMessage(role=..., content=..., conversation_id=...)]. *)
Definition session_add (table : Table) (st : Stamp)
    (r c : string) (cid : option Z) : Table * ChatMessage :=
  let m := mkChatMessage (assigned_id st) r c (utcnow st) cid in
  (table ++ [m], m).

(** The key SQLite gives a new row of a table whose key is declared
    [INTEGER PRIMARY KEY] without [AUTOINCREMENT], which is how the
    [id] field above is declared: one more than the largest key in the
    table. The operations below do not use it, they take the key from
    the [Stamp]; it is here to say which stamps SQLite hands out. *)
Definition next_rowid (table : Table) : Z :=
  1 + fold_right Z.max 0 (map id table).

(** [session.delete(msg)]: the row is found by its primary key. *)
Definition session_delete (table : Table) (msg : ChatMessage) : Table :=
  filter (fun r => negb (id r =? id msg)) table.

(* ================================================================== *)
(** * 3. Context building (stream_ollama_response, part 1) *)
(* ================================================================== *)

Definition CONTEXT_CHAR_LIMIT : Z := 4096 * 2.

Definition len (s : string) : Z := Z.of_nat (String.length s).

Definition to_ollama (msg : ChatMessage) : OllamaMessage.t :=
  OllamaMessage.mk (role msg) (content msg).

(** The [for msg in history] loop with its [break]; returns
    [messages_for_ollama] and [current_chars]. *)
Fixpoint walk_history (history : list ChatMessage)
    (messages_for_ollama : list OllamaMessage.t) (current_chars : Z)
    : list OllamaMessage.t * Z :=
  match history with
  | [] => (messages_for_ollama, current_chars)
  | msg :: older =>
      let msg_chars := len (content msg) in
      if current_chars + msg_chars >? CONTEXT_CHAR_LIMIT
      then (messages_for_ollama, current_chars)
      else walk_history older (messages_for_ollama ++ [to_ollama msg])
                        (current_chars + msg_chars)
  end.

(** Lines 100-124: query, walk, [messages_for_ollama.reverse()]. *)
Definition build_context (table : Table) (cid : option Z)
    : list OllamaMessage.t :=
  let history := select_history table cid in
  rev (fst (walk_history history [] 0)).

(** The rows the walk took, newest first (a view of [walk_history] used
    to state what it included). *)
Fixpoint taken (history : list ChatMessage) (current_chars : Z)
    : list ChatMessage :=
  match history with
  | [] => []
  | msg :: older =>
      if current_chars + len (content msg) >? CONTEXT_CHAR_LIMIT then []
      else msg :: taken older (current_chars + len (content msg))
  end.

Definition total_chars (l : list ChatMessage) : Z :=
  fold_right (fun m acc => len (content m) + acc) 0 l.

Definition context_chars (l : list OllamaMessage.t) : Z :=
  fold_right (fun m acc => len (OllamaMessage.content m) + acc) 0 l.

(* ================================================================== *)
(** * 4. Streaming relay (stream_ollama_response, part 2) *)
(* ================================================================== *)

(** [d.get(key)] on a parsed object. *)
Fixpoint dict_get (d : list (string * json)) (key : string) : option json :=
  match d with
  | [] => None
  | (k, v) :: d' => if String.eqb k key then Some v else dict_get d' key
  end.

(** Python truth value of a parsed JSON value. *)
Definition truthy (v : json) : bool :=
  match v with
  | JNull => false
  | JBool b => b
  | JNum n => negb (n =? 0)
  | JStr s => negb (String.eqb s EmptyString)
  | JArr items => match items with [] => false | _ => true end
  | JObj fields => match fields with [] => false | _ => true end
  end.

(** The generator's state inside [async for line in ...]. *)
Record Relay : Type := mkRelay {
  full_response_content : string;
  table : Table;
  yielded : list Event;     (* in the order of the [yield]s *)
  commits : nat             (* inserts committed by this generator *)
}.

(** [content_piece = chunk.get("message", {}).get("content")]; [inr]
    when [.get] is called on something that is not a dict. *)
Definition content_piece_of (chunk : json) : json + PyError :=
  match chunk with
  | JObj fields =>
      let message :=
        match dict_get fields "message" with
        | Some v => v
        | None => JObj []
        end in
      match message with
      | JObj mfields =>
          match dict_get mfields "content" with
          | Some v => inl v
          | None => inl JNull
          end
      | _ => inr AttributeError
      end
  | _ => inr AttributeError
  end.

(** [chunk.get("done")], for a [chunk] known to be a dict. *)
Definition done_of (chunk : json) : json :=
  match chunk with
  | JObj fields =>
      match dict_get fields "done" with
      | Some v => v
      | None => JNull
      end
  | _ => JNull
  end.

(** [full_response_content += content_piece; yield {'content': ...}];
    [+=] on a [str] with anything but a [str] raises [TypeError]. *)
Definition add_piece (st : Relay) (content_piece : json) : Relay + PyError :=
  if truthy content_piece then
    match content_piece with
    | JStr s =>
        inl (mkRelay (full_response_content st ++ s)%string (table st)
                     (yielded st ++ [EvContent s]) (commits st))
    | _ => inr TypeError
    end
  else inl st.

(** The body of [if chunk.get("done"):]. *)
Definition persist_reply (stamps : nat -> Stamp) (cid : option Z)
    (st : Relay) : Relay :=
  let (table', assistant_message) :=
    session_add (table st) (stamps (commits st)) "assistant"
                (full_response_content st) cid in
  mkRelay (full_response_content st) table'
          (yielded st ++ [EvDone assistant_message]) (S (commits st)).

(** One turn of the loop. *)
Definition on_line (stamps : nat -> Stamp) (cid : option Z)
    (st : Relay) (line : Line) : Relay * Exit :=
  match line with
  | Blank => (st, Finished)
  | Garbled => (st, Finished)
  | Parsed chunk =>
      match content_piece_of chunk with
      | inr e => (st, Raised e)
      | inl content_piece =>
          match add_piece st content_piece with
          | inr e => (st, Raised e)
          | inl st1 =>
              if truthy (done_of chunk)
              then (persist_reply stamps cid st1, Finished)
              else (st1, Finished)
          end
      end
  end.

(** [async for line in response.aiter_lines()]. *)
Fixpoint relay_lines (stamps : nat -> Stamp) (cid : option Z)
    (lines : list Line) (st : Relay) : Relay * Exit :=
  match lines with
  | [] => (st, Finished)
  | line :: rest =>
      match on_line stamps cid st line with
      | (st', Raised e) => (st', Raised e)
      | (st', Finished) => relay_lines stamps cid rest st'
      end
  end.

(** What a run of the generator leaves behind. *)
Record Outcome : Type := mkOutcome {
  events : list Event;
  store : Table;
  exit : Exit
}.

Definition payload_for (tbl : Table) (request : ChatRequest.t)
    (cid : option Z) : ChatPayload.t :=
  ChatPayload.mk (ChatRequest.model request) (build_context tbl cid) true.

Definition stream_ollama_response
    (ollama : ChatPayload.t -> Response.t) (stamps : nat -> Stamp)
    (tbl : Table) (request : ChatRequest.t) (cid : option Z) : Outcome :=
  let response := ollama (payload_for tbl request cid) in
  if negb (Response.status_code response =? 200) then
    match Response.error_content response with
    | Text error_text =>
        mkOutcome [EvError ("Ollama API Error: " ++ error_text)%string]
                  tbl Finished
    | NotUtf8 => mkOutcome [] tbl (Raised UnicodeDecodeError)
    end
  else
    let (st, ex) :=
      relay_lines stamps cid (Response.aiter_lines response)
                  (mkRelay EmptyString tbl [] 0) in
    mkOutcome (yielded st) (table st) ex.

(* ================================================================== *)
(** * 5. Regeneration (regenerate_from_prompt) *)
(* ================================================================== *)

(** The [where] clauses of [messages_to_delete]. *)
Definition to_delete (cid : option Z) (timestamp_of_edit : Z)
    (m : ChatMessage) : bool :=
  in_conversation cid m && (timestamp_of_edit <=? created_at m).

(** What the [with Session(engine)] block leaves when it does not raise. *)
Record Rewound : Type := mkRewound {
  rw_table : Table;
  rw_conversation_id : option Z;
  rw_timestamp_of_edit : Z;
  rw_new_user_message : ChatMessage
}.

(** Lines 173-188. *)
Definition rewind (tbl : Table) (request : RegenerateRequest.t)
    (st : Stamp) : Result Rewound :=
  match session_get tbl (RegenerateRequest.message_id request) with
  | Overflow => Raises OverflowError
  | Absent => Raise404 "Original user message not found"
  | Found original_message =>
      if negb (String.eqb (role original_message) "user")
      then Raise404 "Original user message not found"
      else
        let cid := conversation_id original_message in
        let timestamp_of_edit := created_at original_message in
        let messages_to_delete :=
          filter (to_delete cid timestamp_of_edit) tbl in
        let tbl1 := fold_left session_delete messages_to_delete tbl in
        let (tbl2, new_user_message) :=
          session_add tbl1 st "user"
                      (RegenerateRequest.new_prompt request) cid in
        Returns (mkRewound tbl2 cid timestamp_of_edit new_user_message)
  end.

(** The answer of the endpoint, with the table it leaves; [Unhandled]
    is an exception that escapes the handler (status 500). *)
Inductive Reply : Type :=
  | HTTPException (status_code : Z) (detail : string) (tbl : Table)
  | Unhandled (e : PyError) (tbl : Table)
  | StreamingResponse (out : Outcome).

Definition regenerate_from_prompt
    (ollama : ChatPayload.t -> Response.t)
    (st : Stamp) (stamps : nat -> Stamp)
    (tbl : Table) (request : RegenerateRequest.t) : Reply :=
  match rewind tbl request st with
  | Raise404 detail => HTTPException 404 detail tbl
  | Raises e => Unhandled e tbl
  | Returns rw =>
      let chat_request_for_stream :=
        ChatRequest.mk (RegenerateRequest.new_prompt request)
                       (rw_conversation_id rw)
                       (RegenerateRequest.model request) in
      let out :=
        stream_ollama_response ollama stamps (rw_table rw)
          chat_request_for_stream (rw_conversation_id rw) in
      StreamingResponse
        (mkOutcome
           (EvInitial (rw_new_user_message rw) (rw_conversation_id rw)
              :: events out)
           (store out) (exit out))
  end.

(** The table a reply leaves. *)
Definition table_after (r : Reply) : Table :=
  match r with
  | HTTPException _ _ tbl => tbl
  | Unhandled _ tbl => tbl
  | StreamingResponse out => store out
  end.

(* ================================================================== *)
(** * 6. Reading an event stream and a response body *)
(* ================================================================== *)

(** The fragments of the content-delta events, concatenated in the
    order they were sent. *)
Fixpoint fragments (evs : list Event) : string :=
  match evs with
  | [] => EmptyString
  | EvContent s :: evs' => (s ++ fragments evs')%string
  | _ :: evs' => fragments evs'
  end.

(** The messages carried by the done events, in order. *)
Fixpoint done_messages (evs : list Event) : list ChatMessage :=
  match evs with
  | [] => []
  | EvDone m :: evs' => m :: done_messages evs'
  | _ :: evs' => done_messages evs'
  end.

Definition is_content (ev : Event) : bool :=
  match ev with
  | EvContent _ => true
  | _ => false
  end.

(** A line that parses to an object whose [done] entry is true for
    Python. *)
Definition carries_done (line : Line) : bool :=
  match line with
  | Parsed (JObj fields) => truthy (done_of (JObj fields))
  | _ => false
  end.

Definition done_lines (lines : list Line) : nat :=
  List.length (filter carries_done lines).

(** The row that the [k]-th insert of a relay writes when the
    accumulator holds [text]. *)
Definition assistant_row (stamps : nat -> Stamp) (cid : option Z)
    (k : nat) (text : string) : ChatMessage :=
  mkChatMessage (assigned_id (stamps k)) "assistant" text
                (utcnow (stamps k)) cid.

(** What holds of the generator's state between two lines, for a relay
    started on the table [tbl0]. *)
Definition relay_inv (stamps : nat -> Stamp) (cid : option Z)
    (tbl0 : Table) (st : Relay) : Prop :=
  full_response_content st = fragments (yielded st) /\
  table st = tbl0 ++ done_messages (yielded st) /\
  commits st = List.length (done_messages (yielded st)) /\
  (forall pre m post,
      yielded st = pre ++ EvDone m :: post ->
      m = assistant_row stamps cid (List.length (done_messages pre))
                        (fragments pre)) /\
  (forall ev, In ev (yielded st) ->
      match ev with
      | EvContent s => s <> EmptyString
      | EvDone _ => True
      | _ => False
      end).

(* ================================================================== *)
(** * 7. Sample tables, bodies and backends *)
(* ================================================================== *)

Module Sample.

(** A text of [n] characters. *)
Definition filler (n : N) : string :=
  N.iter n (String "x"%char) EmptyString.

(** Stamps with consecutive keys and clock readings. *)
Definition stamps_from (first_id first_time : Z) (k : nat) : Stamp :=
  mkStamp (first_id + Z.of_nat k) (first_time + Z.of_nat k).

(** Two conversations; conversation 1 has two finished turns, and the
    newest row of the table belongs to conversation 2. *)
Definition m1 := mkChatMessage 1 "user" "Hi" 10 (Some 1).
Definition m2 := mkChatMessage 2 "assistant" "Hello" 20 (Some 1).
Definition m3 := mkChatMessage 3 "user" "More" 30 (Some 1).
Definition m4 := mkChatMessage 4 "assistant" "Sure" 40 (Some 1).
Definition other := mkChatMessage 5 "user" "Else" 45 (Some 2).
Definition chat_table : Table := [m1; m2; m3; m4; other].

(** The stamps of a relay that runs on [chat_table]. *)
Definition stamps : nat -> Stamp := stamps_from 6 1000.

(** The stamps of a regeneration on [chat_table]: the new user message,
    then the rows of its relay. *)
Definition stamp : Stamp := mkStamp 6 500.
Definition regen_stamps : nat -> Stamp := stamps_from 7 600.

(** Two long messages that do not fit the budget together. *)
Definition long1 := mkChatMessage 1 "user" (filler 5000) 10 (Some 1).
Definition long2 := mkChatMessage 2 "assistant" (filler 5000) 20 (Some 1).
Definition long_table : Table := [long1; long2].

(** A latest message that is longer than the budget by itself. *)
Definition huge := mkChatMessage 2 "user" (filler 9000) 20 (Some 1).
Definition huge_table : Table := [m1; huge].

Definition piece (s : string) (done : bool) : Line :=
  Parsed (JObj [("message"%string, JObj [("content"%string, JStr s)]);
                ("done"%string, JBool done)]).

(** A body as the backend sends it: fragments, then the flag. *)
Definition good_body : list Line :=
  [piece "Hel" false; Blank; piece "lo" false; Garbled; piece "" true].

(** A body whose flagged line is followed by one more fragment. *)
Definition late_body : list Line :=
  [piece "a" true; piece "b" false].


Definition replies (r : Response.t) : ChatPayload.t -> Response.t :=
  fun _ => r.

Definition request : ChatRequest.t :=
  ChatRequest.mk "More" (Some 1) "llama3".

Definition regen : RegenerateRequest.t :=
  RegenerateRequest.mk 3 "Other" "llama3".

(** A table with one finished turn, a regeneration from its user
    message, and the stamps SQLite gives along the way. *)
Definition turn_table : Table := [m1; m2].

Definition again : RegenerateRequest.t :=
  RegenerateRequest.mk 1 "Hi again" "llama3".

Definition first_stamp : Stamp := mkStamp 1 500.
Definition first_stamps : nat -> Stamp := stamps_from 2 600.
Definition second_stamp : Stamp := mkStamp 1 700.
Definition second_stamps : nat -> Stamp := stamps_from 2 800.

End Sample.

(* ================================================================== *)
(** * 7a. The rest of main.py: conversations and the chat endpoint *)
(* ================================================================== *)

(** [class Conversation(SQLModel, table=True)]; its [messages]
    relationship is read from the [chatmessage] table. *)
Module Conversation.
Record t : Type := mk {
  id : Z;
  title : string;
  created_at : Z
}.
End Conversation.

(** [class TitleUpdateRequest(SQLModel)]. *)
Module TitleUpdateRequest.
Record t : Type := mk {
  title : string
}.
End TitleUpdateRequest.

(** The two tables of [database.db]. *)
Record Db : Type := mkDb {
  conversations : list Conversation.t;
  messages : Table
}.

(** [session.get(Conversation, pk)]. *)
Definition conversation_get (cs : list Conversation.t) (pk : Z)
    : Fetch Conversation.t :=
  if fits_int64 pk then
    match find (fun c => Conversation.id c =? pk) cs with
    | Some c => Found c
    | None => Absent
    end
  else Overflow.

(** [ORDER BY created_at DESC] on conversations, stable as [insert_by]. *)
Fixpoint insert_newest_first (c : Conversation.t)
    (l : list Conversation.t) : list Conversation.t :=
  match l with
  | [] => [c]
  | y :: l' =>
      if Conversation.created_at y <=? Conversation.created_at c
      then c :: l
      else y :: insert_newest_first c l'
  end.

(** [get_conversations] (lines 53-56). *)
Definition get_conversations (db : Db) : list Conversation.t :=
  fold_right insert_newest_first [] (conversations db).

(** [conversation.title = request.title] followed by the commit: the
    row of that key gets the new title. *)
Definition retitle (pk : Z) (new_title : string) (c : Conversation.t)
    : Conversation.t :=
  if Conversation.id c =? pk
  then Conversation.mk (Conversation.id c) new_title
                       (Conversation.created_at c)
  else c.

(** [update_conversation_title] (lines 71-78). *)
Definition update_conversation_title (db : Db) (conversation_id : Z)
    (request : TitleUpdateRequest.t) : Db * Result Conversation.t :=
  match conversation_get (conversations db) conversation_id with
  | Overflow => (db, Raises OverflowError)
  | Absent => (db, Raise404 "Conversation not found")
  | Found conversation =>
      let new_title := TitleUpdateRequest.title request in
      (mkDb (map (retitle (Conversation.id conversation) new_title)
                 (conversations db))
            (messages db),
       Returns (Conversation.mk (Conversation.id conversation) new_title
                                (Conversation.created_at conversation)))
  end.

(** [delete_conversation] (lines 79-85). [session.delete(conversation)]
    cascades over [conversation.messages], the rows whose
    [conversation_id] is the conversation's key, and deletes each of
    them by its primary key. *)
Definition delete_conversation (db : Db) (conversation_id : Z)
    : Db * Result Z :=
  match conversation_get (conversations db) conversation_id with
  | Overflow => (db, Raises OverflowError)
  | Absent => (db, Raise404 "Conversation not found")
  | Found conversation =>
      let owned :=
        filter (in_conversation (Some (Conversation.id conversation)))
               (messages db) in
      (mkDb (filter (fun c => negb (Conversation.id c
                                    =? Conversation.id conversation))
                    (conversations db))
            (fold_left session_delete owned (messages db)),
       Returns 204)
  end.

(** [request.prompt[:50]]. *)
Definition first_50 (prompt : string) : string :=
  substring 0 50 prompt.

(** The conversation a chat request talks to (lines 155-159): a new
    row when the request names none, the stored one otherwise. *)
Definition chat_conversation (db : Db) (cstamp : Stamp)
    (request : ChatRequest.t)
    : Result (list Conversation.t * Conversation.t) :=
  match ChatRequest.conversation_id request with
  | None =>
      let conversation :=
        Conversation.mk (assigned_id cstamp)
                        (first_50 (ChatRequest.prompt request))
                        (utcnow cstamp) in
      Returns (conversations db ++ [conversation], conversation)
  | Some pk =>
      match conversation_get (conversations db) pk with
      | Overflow => Raises OverflowError
      | Absent => Raise404 "Conversation not found"
      | Found conversation => Returns (conversations db, conversation)
      end
  end.

(** [chat_stream] (lines 152-168) with its [combined_stream]: the
    tables it leaves, and the events and the way the stream ends. *)
Definition chat_stream (ollama : ChatPayload.t -> Response.t)
    (cstamp mstamp : Stamp) (stamps : nat -> Stamp)
    (db : Db) (request : ChatRequest.t)
    : Db * Result (list Event * Exit) :=
  match chat_conversation db cstamp request with
  | Raise404 detail => (db, Raise404 detail)
  | Raises e => (db, Raises e)
  | Returns (convs, conversation) =>
      let cid := Some (Conversation.id conversation) in
      let (msgs, user_message) :=
        session_add (messages db) mstamp "user"
                    (ChatRequest.prompt request) cid in
      let out := stream_ollama_response ollama stamps msgs request cid in
      (mkDb convs (store out),
       Returns (EvInitial user_message cid :: events out, exit out))
  end.

(** A line that the loop passes over. *)
Definition is_noise (line : Line) : bool :=
  match line with
  | Parsed _ => false
  | _ => true
  end.

(** The backend that sends what [ollama] sends, without those lines. *)
Definition without_noise (ollama : ChatPayload.t -> Response.t)
    : ChatPayload.t -> Response.t :=
  fun payload =>
    let r := ollama payload in
    Response.mk (Response.status_code r) (Response.error_content r)
                (filter (fun line => negb (is_noise line))
                        (Response.aiter_lines r)).

(** The string a line carries as its content, if it carries one. *)
Definition text_of (line : Line) : string :=
  match line with
  | Parsed chunk =>
      match content_piece_of chunk with
      | inl (JStr s) => s
      | _ => EmptyString
      end
  | _ => EmptyString
  end.

Definition concat_texts (lines : list Line) : string :=
  fold_right (fun line acc => (text_of line ++ acc)%string)
             EmptyString lines.

(** The events a relay may send after a status 200. *)
Definition is_delta_or_done (ev : Event) : Prop :=
  match ev with
  | EvContent _ => True
  | EvDone _ => True
  | _ => False
  end.

Module Demo.

Definition c1 := Conversation.mk 1 "Hi" 5.
Definition c2 := Conversation.mk 2 "Else" 44.
Definition db : Db := mkDb [c1; c2] Sample.chat_table.

Definition conv_stamp : Stamp := mkStamp 3 490.
Definition msg_stamp : Stamp := mkStamp 6 500.
Definition relay_stamps : nat -> Stamp := Sample.stamps_from 7 600.

Definition ask : ChatRequest.t :=
  ChatRequest.mk "And then?" (Some 1) "llama3".

Definition open_new : ChatRequest.t :=
  ChatRequest.mk (Sample.filler 60) None "llama3".

Definition long_ask : ChatRequest.t :=
  ChatRequest.mk (Sample.filler 9000) (Some 1) "llama3".

Definition lost : ChatRequest.t :=
  ChatRequest.mk "Anyone?" (Some 7) "llama3".

Definition rename : TitleUpdateRequest.t :=
  TitleUpdateRequest.mk "Greetings".

Definition good : ChatPayload.t -> Response.t :=
  Sample.replies (Response.mk 200 (Text "") Sample.good_body).

(** A body that breaks off: fragments, a number where an object is
    expected, then lines that are never read. *)
Definition broken_body : list Line :=
  [Sample.piece "Hel" false; Parsed (JNum 7); Sample.piece "lo" true].

(** A body that ends without the completion flag. *)
Definition cut_body : list Line :=
  [Sample.piece "Hel" false; Sample.piece "lo" false].

End Demo.

(* ================================================================== *)
(** * 8. Facts about the queries *)
(* ================================================================== *)

Section OrderBy.

Variable le : ChatMessage -> ChatMessage -> bool.

Hypothesis le_total : forall x y, le x y = true \/ le y x = true.
Hypothesis le_trans :
  forall x y z, le x y = true -> le y z = true -> le x z = true.

Lemma insert_by_perm x l : Permutation (x :: l) (insert_by le x l).
Proof.
  induction l as [|y l IH]; simpl.
  - apply Permutation_refl.
  - destruct (le x y).
    + apply Permutation_refl.
    + eapply perm_trans; [apply perm_swap|].
      apply perm_skip, IH.
Qed.

Lemma order_by_perm l : Permutation l (order_by le l).
Proof.
  induction l as [|x l IH]; simpl.
  - apply perm_nil.
  - eapply perm_trans; [apply perm_skip, IH|].
    apply insert_by_perm.
Qed.

Lemma order_by_In x l : In x (order_by le l) <-> In x l.
Proof.
  split; intro H.
  - eapply Permutation_in; [apply Permutation_sym, order_by_perm|exact H].
  - eapply Permutation_in; [apply order_by_perm|exact H].
Qed.

Lemma insert_by_sorted x l :
  StronglySorted (holds le) l -> StronglySorted (holds le) (insert_by le x l).
Proof.
  induction 1 as [|y l Hs IH Hall]; simpl.
  - constructor; [constructor|constructor].
  - destruct (le x y) eqn:E.
    + constructor.
      * constructor; assumption.
      * constructor; [exact E|].
        rewrite Forall_forall in *. intros z Hz.
        eapply le_trans; [exact E|]. apply Hall, Hz.
    + constructor; [exact IH|].
      rewrite Forall_forall in *. intros z Hz.
      apply (Permutation_in _ (Permutation_sym (insert_by_perm x l))) in Hz.
      destruct Hz as [<-|Hz].
      * destruct (le_total x y) as [C|C]; [congruence|exact C].
      * apply Hall, Hz.
Qed.

Lemma order_by_sorted l : StronglySorted (holds le) (order_by le l).
Proof.
  induction l as [|x l IH]; simpl.
  - constructor.
  - apply insert_by_sorted, IH.
Qed.

(** Inserting below a sorted list commutes with filtering it. *)
Lemma filter_insert_by (p : ChatMessage -> bool) x l :
  StronglySorted (holds le) l ->
  filter p (insert_by le x l) =
  if p x then insert_by le x (filter p l) else filter p l.
Proof.
  induction 1 as [|y l Hs IH Hall]; simpl.
  - destruct (p x); reflexivity.
  - destruct (le x y) eqn:E; simpl.
    + destruct (p x) eqn:Px, (p y) eqn:Py; simpl; rewrite ?E; try reflexivity.
      (* x is kept, y is dropped: x still goes before what is left *)
      assert (Hhead : forall l', Forall (holds le x) l' ->
                insert_by le x l' = x :: l').
      { intros [|z l'] Hf; simpl; [reflexivity|].
        inversion Hf as [|? ? Hz _]; subst. unfold holds in Hz.
        rewrite Hz. reflexivity. }
      rewrite Hhead; [reflexivity|].
      rewrite Forall_forall in *. intros z Hz.
      apply filter_In in Hz. destruct Hz as [Hz _].
      eapply le_trans; [exact E|apply Hall, Hz].
    + rewrite IH.
      destruct (p x) eqn:Px, (p y) eqn:Py; simpl; rewrite ?E; reflexivity.
Qed.

Lemma filter_order_by (p : ChatMessage -> bool) l :
  filter p (order_by le l) = order_by le (filter p l).
Proof.
  induction l as [|x l IH]; simpl; [reflexivity|].
  rewrite filter_insert_by by apply order_by_sorted.
  destruct (p x); simpl; rewrite IH; reflexivity.
Qed.

(** A row that is no smaller than all others and was inserted last
    comes last. *)
Lemma insert_by_snoc x l n :
  le x n = true ->
  insert_by le x (l ++ [n]) = insert_by le x l ++ [n].
Proof.
  intro Hx. induction l as [|y l IH]; simpl.
  - rewrite Hx. reflexivity.
  - destruct (le x y); simpl; [reflexivity|].
    rewrite IH. reflexivity.
Qed.

Lemma order_by_snoc l n :
  Forall (fun x => le x n = true) l ->
  order_by le (l ++ [n]) = order_by le l ++ [n].
Proof.
  induction 1 as [|x l Hx Hl IH]; simpl; [reflexivity|].
  rewrite IH. apply insert_by_snoc, Hx.
Qed.

End OrderBy.

Lemma created_at_asc_total x y :
  created_at_asc x y = true \/ created_at_asc y x = true.
Proof. unfold created_at_asc. lia. Qed.

Lemma created_at_asc_trans x y z :
  created_at_asc x y = true -> created_at_asc y z = true ->
  created_at_asc x z = true.
Proof. unfold created_at_asc. lia. Qed.

Lemma created_at_desc_total x y :
  created_at_desc x y = true \/ created_at_desc y x = true.
Proof. unfold created_at_desc. lia. Qed.

Lemma created_at_desc_trans x y z :
  created_at_desc x y = true -> created_at_desc y z = true ->
  created_at_desc x z = true.
Proof. unfold created_at_desc. lia. Qed.

(** Reading a newest-first list backwards gives an oldest-first list. *)
Lemma rev_desc_sorted l :
  StronglySorted (holds created_at_desc) l ->
  StronglySorted (holds created_at_asc) (rev l).
Proof.
  induction 1 as [|x l Hs IH Hall]; simpl.
  - constructor.
  - assert (Hsnoc : forall l', StronglySorted (holds created_at_asc) l' ->
              Forall (fun y => holds created_at_asc y x) l' ->
              StronglySorted (holds created_at_asc) (l' ++ [x])).
    { induction 1 as [|y l' Hs' IH' Hall']; simpl; intro Hf.
      - constructor; constructor.
      - inversion Hf as [|? ? Hy Hf']; subst.
        constructor; [apply IH', Hf'|].
        apply Forall_app. split; [exact Hall'|].
        constructor; [exact Hy|constructor]. }
    apply Hsnoc; [exact IH|].
    rewrite Forall_forall in *. intros y Hy.
    apply in_rev in Hy. apply Hall in Hy.
    unfold holds, created_at_desc, created_at_asc in *. exact Hy.
Qed.

(** With pairwise distinct timestamps there is one oldest-first order. *)
Lemma sorted_perm_unique l1 :
  forall l2,
    NoDup (map created_at l1) ->
    StronglySorted (holds created_at_asc) l1 ->
    StronglySorted (holds created_at_asc) l2 ->
    Permutation l1 l2 ->
    l1 = l2.
Proof.
  induction l1 as [|a l1 IH]; intros l2 Hnd Hs1 Hs2 Hp.
  - apply Permutation_nil in Hp. symmetry. exact Hp.
  - destruct l2 as [|b l2].
    + apply Permutation_sym, Permutation_nil in Hp. discriminate.
    + inversion Hs1 as [|? ? Hs1' Ha]; subst.
      inversion Hs2 as [|? ? Hs2' Hb]; subst.
      inversion Hnd as [|? ? Hnotin Hnd']; subst.
      assert (Hab : a = b).
      { assert (Hin_a : In a (b :: l2))
          by (eapply Permutation_in; [exact Hp|left; reflexivity]).
        assert (Hin_b : In b (a :: l1))
          by (eapply Permutation_in;
              [apply Permutation_sym, Hp|left; reflexivity]).
        destruct Hin_a as [E|Hin_a]; [symmetry; exact E|].
        destruct Hin_b as [E|Hin_b]; [exact E|].
        rewrite Forall_forall in Ha, Hb.
        pose proof (Hb _ Hin_a) as Hba. pose proof (Ha _ Hin_b) as Hab.
        unfold holds, created_at_asc in Hba, Hab.
        exfalso. apply Hnotin.
        replace (created_at a) with (created_at b) by lia.
        apply in_map, Hin_b. }
      subst b. f_equal.
      apply IH; try assumption.
      eapply Permutation_cons_inv. exact Hp.
Qed.

Lemma history_is_reversed_chronology tbl cid :
  NoDup (map created_at (filter (in_conversation cid) tbl)) ->
  rev (select_history tbl cid) = get_conversation_messages tbl cid.
Proof.
  intro Hnd. unfold select_history, get_conversation_messages.
  set (l := filter (in_conversation cid) tbl) in *.
  assert (Hp : Permutation (rev (order_by created_at_desc l))
                           (order_by created_at_asc l)).
  { eapply perm_trans; [apply Permutation_sym, Permutation_rev|].
    eapply perm_trans; [apply Permutation_sym, order_by_perm|].
    apply order_by_perm. }
  apply sorted_perm_unique.
  - eapply Permutation_NoDup; [|exact Hnd].
    apply Permutation_map.
    eapply perm_trans; [apply order_by_perm|apply Permutation_rev].
  - apply rev_desc_sorted, order_by_sorted.
    + apply created_at_desc_total.
    + apply created_at_desc_trans.
  - apply order_by_sorted.
    + apply created_at_asc_total.
    + apply created_at_asc_trans.
  - exact Hp.
Qed.

(* ================================================================== *)
(** * 9. Facts about the context walk *)
(* ================================================================== *)

Lemma walk_history_taken history :
  forall acc cur,
    walk_history history acc cur =
    (acc ++ map to_ollama (taken history cur),
     cur + total_chars (taken history cur)).
Proof.
  induction history as [|msg older IH]; intros acc cur; simpl.
  - rewrite app_nil_r. f_equal. lia.
  - destruct (cur + len (content msg) >? CONTEXT_CHAR_LIMIT) eqn:E; simpl.
    + rewrite app_nil_r. f_equal. lia.
    + rewrite IH, <- app_assoc. simpl. f_equal. lia.
Qed.

Lemma taken_split history :
  forall cur, exists excluded,
    history = taken history cur ++ excluded /\
    match excluded with
    | [] => True
    | m :: _ =>
        cur + total_chars (taken history cur) + len (content m)
          > CONTEXT_CHAR_LIMIT
    end.
Proof.
  induction history as [|msg older IH]; intro cur; simpl.
  - exists []. split; [reflexivity|exact I].
  - destruct (cur + len (content msg) >? CONTEXT_CHAR_LIMIT) eqn:E; simpl.
    + exists (msg :: older). split; [reflexivity|]. lia.
    + destruct (IH (cur + len (content msg))) as [ex [Heq Hex]].
      exists ex. split; [f_equal; exact Heq|].
      destruct ex; [exact I|]. lia.
Qed.

Lemma taken_budget history :
  forall cur, cur <= CONTEXT_CHAR_LIMIT ->
    cur + total_chars (taken history cur) <= CONTEXT_CHAR_LIMIT.
Proof.
  induction history as [|msg older IH]; intros cur Hcur; simpl.
  - lia.
  - destruct (cur + len (content msg) >? CONTEXT_CHAR_LIMIT) eqn:E; simpl.
    + lia.
    + specialize (IH (cur + len (content msg))). lia.
Qed.

Lemma build_context_taken tbl cid :
  build_context tbl cid =
  rev (map to_ollama (taken (select_history tbl cid) 0)).
Proof.
  unfold build_context. rewrite walk_history_taken. reflexivity.
Qed.

Lemma context_chars_map l :
  context_chars (map to_ollama l) = total_chars l.
Proof.
  induction l as [|m l IH]; simpl; [reflexivity|].
  fold (context_chars (map to_ollama l)). rewrite IH. reflexivity.
Qed.

Lemma context_chars_app l1 l2 :
  context_chars (l1 ++ l2) = context_chars l1 + context_chars l2.
Proof.
  induction l1 as [|m l1 IH]; simpl; [reflexivity|].
  fold (context_chars (l1 ++ l2)). fold (context_chars l1).
  rewrite IH. lia.
Qed.

Lemma context_chars_rev l : context_chars (rev l) = context_chars l.
Proof.
  induction l as [|m l IH]; simpl; [reflexivity|].
  rewrite context_chars_app, IH. simpl. lia.
Qed.

(* ================================================================== *)
(** * 10. Facts about the relay loop *)
(* ================================================================== *)

Lemma append_nil_r (s : string) : (s ++ "")%string = s.
Proof. induction s as [|c s IH]; simpl; [reflexivity|now rewrite IH]. Qed.

Lemma append_assoc (a b c : string) :
  ((a ++ b) ++ c)%string = (a ++ (b ++ c))%string.
Proof. induction a as [|x a IH]; simpl; [reflexivity|now rewrite IH]. Qed.

Lemma fragments_app evs1 evs2 :
  fragments (evs1 ++ evs2) = (fragments evs1 ++ fragments evs2)%string.
Proof.
  induction evs1 as [|ev evs1 IH]; simpl; [reflexivity|].
  destruct ev; simpl; try exact IH.
  rewrite IH, append_assoc. reflexivity.
Qed.

Lemma done_messages_app evs1 evs2 :
  done_messages (evs1 ++ evs2) = done_messages evs1 ++ done_messages evs2.
Proof.
  induction evs1 as [|ev evs1 IH]; simpl; [reflexivity|].
  destruct ev; simpl; rewrite ?IH; reflexivity.
Qed.

(** Where a split of a stream that got one more event can lie. *)
Lemma snoc_split (evs pre post : list Event) (a b : Event) :
  evs ++ [a] = pre ++ b :: post ->
  (post = [] /\ evs = pre /\ a = b) \/
  (exists post', post = post' ++ [a] /\ evs = pre ++ b :: post').
Proof.
  intro H. destruct post as [|x post' _] using rev_ind.
  - left. apply app_inj_tail in H. destruct H as [-> ->]. auto.
  - right. exists post'.
    change (pre ++ b :: post' ++ [x]) with (pre ++ (b :: post') ++ [x]) in H.
    rewrite app_assoc in H. apply app_inj_tail in H.
    destruct H as [-> ->]. split; reflexivity.
Qed.

Section RelayLoop.

Variable stamps : nat -> Stamp.
Variable cid : option Z.
Variable tbl0 : Table.

Lemma relay_inv_start :
  relay_inv stamps cid tbl0 (mkRelay EmptyString tbl0 [] 0).
Proof.
  unfold relay_inv; simpl. repeat split.
  - rewrite app_nil_r. reflexivity.
  - intros pre m post H. destruct pre; discriminate.
  - intros ev [].
Qed.

Lemma add_piece_cases st v st1 :
  add_piece st v = inl st1 ->
  st1 = st \/
  exists s, v = JStr s /\ s <> EmptyString /\
    st1 = mkRelay (full_response_content st ++ s)%string (table st)
                  (yielded st ++ [EvContent s]) (commits st).
Proof.
  unfold add_piece. destruct (truthy v) eqn:T.
  - destruct v; try discriminate. intros [= <-]. right.
    exists s. repeat split. simpl in T.
    intros ->. discriminate.
  - intros [= <-]. left. reflexivity.
Qed.

Lemma add_piece_inv st v st1 :
  relay_inv stamps cid tbl0 st -> add_piece st v = inl st1 ->
  relay_inv stamps cid tbl0 st1.
Proof.
  intros Hinv H. apply add_piece_cases in H.
  destruct H as [->|[s [_ [Hs ->]]]]; [exact Hinv|].
  destruct Hinv as (Hacc & Htab & Hcom & Hdone & Hev).
  unfold relay_inv; simpl. repeat split.
  - rewrite fragments_app, Hacc. simpl. rewrite append_nil_r. reflexivity.
  - rewrite done_messages_app. simpl. rewrite app_nil_r. exact Htab.
  - rewrite done_messages_app. simpl. rewrite app_nil_r. exact Hcom.
  - intros pre m post H. apply snoc_split in H.
    destruct H as [(_ & _ & H)|[post' [_ H]]]; [discriminate|].
    eapply Hdone, H.
  - intros ev H. apply in_app_or in H. destruct H as [H|[<-|[]]].
    + apply Hev, H.
    + exact Hs.
Qed.

Lemma persist_reply_inv st :
  relay_inv stamps cid tbl0 st ->
  relay_inv stamps cid tbl0 (persist_reply stamps cid st).
Proof.
  intros (Hacc & Htab & Hcom & Hdone & Hev).
  unfold relay_inv, persist_reply; simpl. repeat split.
  - rewrite fragments_app. simpl. rewrite append_nil_r. exact Hacc.
  - rewrite done_messages_app, Htab, <- app_assoc. reflexivity.
  - rewrite done_messages_app, length_app, Hcom. simpl. lia.
  - intros pre m post H. apply snoc_split in H.
    destruct H as [(_ & <- & [= <-])|[post' [_ H]]].
    + unfold assistant_row. rewrite Hacc, Hcom. reflexivity.
    + eapply Hdone, H.
  - intros ev H. apply in_app_or in H. destruct H as [H|[<-|[]]].
    + apply Hev, H.
    + exact I.
Qed.

Lemma on_line_inv st line st' ex :
  relay_inv stamps cid tbl0 st ->
  on_line stamps cid st line = (st', ex) ->
  relay_inv stamps cid tbl0 st'.
Proof.
  intros Hinv H. unfold on_line in H.
  destruct line as [| |chunk]; try (injection H as <- _; exact Hinv).
  destruct (content_piece_of chunk) as [v|e];
    [|injection H as <- _; exact Hinv].
  destruct (add_piece st v) as [st1|e] eqn:A;
    [|injection H as <- _; exact Hinv].
  pose proof (add_piece_inv _ _ _ Hinv A) as Hinv1.
  destruct (truthy (done_of chunk)); injection H as <- _.
  - apply persist_reply_inv, Hinv1.
  - exact Hinv1.
Qed.

Lemma relay_lines_inv lines :
  forall st st' ex,
    relay_inv stamps cid tbl0 st ->
    relay_lines stamps cid lines st = (st', ex) ->
    relay_inv stamps cid tbl0 st'.
Proof.
  induction lines as [|line rest IH]; intros st st' ex Hinv H; simpl in H.
  - injection H as <- _. exact Hinv.
  - destruct (on_line stamps cid st line) as [st1 ex1] eqn:E.
    pose proof (on_line_inv _ _ _ _ Hinv E) as Hinv1.
    destruct ex1.
    + eapply IH; eassumption.
    + injection H as <- _. exact Hinv1.
Qed.

(** A line commits at most once, and only if it carries the flag. *)
Lemma on_line_commits st line st' ex :
  on_line stamps cid st line = (st', ex) ->
  (commits st' <= commits st + (if carries_done line then 1 else 0))%nat /\
  (ex = Finished ->
   commits st' = (commits st + (if carries_done line then 1 else 0))%nat).
Proof.
  intro H. unfold on_line in H.
  destruct line as [| |chunk]; simpl;
    try (injection H as <- <-; split; [lia|intros _; lia]).
  destruct (content_piece_of chunk) as [v|e] eqn:C.
  - assert (Hobj : carries_done (Parsed chunk) = truthy (done_of chunk)).
    { destruct chunk; try reflexivity; simpl in C; discriminate. }
    simpl in Hobj. rewrite Hobj.
    destruct (add_piece st v) as [st1|e] eqn:A.
    + assert (Hc : commits st1 = commits st).
      { apply add_piece_cases in A.
        destruct A as [->|[s [_ [_ ->]]]]; reflexivity. }
      destruct (truthy (done_of chunk)); injection H as <- <-; simpl;
        rewrite Hc; split; [lia|intros _; lia|lia|intros _; lia].
    + injection H as <- <-. split; [|discriminate].
      destruct (truthy (done_of chunk)); lia.
  - injection H as <- <-. split; [|discriminate].
    destruct (carries_done (Parsed chunk)); lia.
Qed.

Lemma relay_lines_commits lines :
  forall st st' ex,
    relay_lines stamps cid lines st = (st', ex) ->
    (commits st' <= commits st + done_lines lines)%nat /\
    (ex = Finished -> commits st' = (commits st + done_lines lines)%nat).
Proof.
  unfold done_lines.
  induction lines as [|line rest IH]; intros st st' ex H; simpl in H.
  - injection H as <- <-. simpl. split; [lia|intros _; lia].
  - destruct (on_line stamps cid st line) as [st1 ex1] eqn:E.
    apply on_line_commits in E. destruct E as [E1 E2].
    simpl. destruct ex1.
    + apply IH in H. destruct H as [H1 H2]. specialize (E2 eq_refl).
      destruct (carries_done line); simpl; split; try lia;
        intro F; specialize (H2 F); lia.
    + injection H as <- <-. split; [|discriminate].
      destruct (carries_done line); simpl; lia.
Qed.

End RelayLoop.

(* ================================================================== *)
(** * 11. Facts about the rewind *)
(* ================================================================== *)

Lemma conv_eqb_refl c : conv_eqb c c = true.
Proof. destruct c; simpl; [apply Z.eqb_refl|reflexivity]. Qed.

Lemma session_get_Some tbl pk m :
  session_get tbl pk = Found m -> In m tbl /\ id m = pk.
Proof.
  unfold session_get. destruct (fits_int64 pk); [|discriminate].
  destruct (find _ tbl) as [m'|] eqn:F; [|discriminate].
  intros [= <-]. apply find_some in F.
  destruct F as [Hin Hid]. split; [exact Hin|lia].
Qed.

Lemma session_get_None tbl pk :
  session_get tbl pk = Absent <->
  fits_int64 pk = true /\ ~ In pk (map id tbl).
Proof.
  unfold session_get. split.
  - destruct (fits_int64 pk); [|discriminate].
    destruct (find _ tbl) as [m'|] eqn:F; [discriminate|].
    intros _. split; [reflexivity|]. intro Hin.
    apply in_map_iff in Hin. destruct Hin as [m [Hid Hin]].
    pose proof (find_none _ _ F _ Hin) as Hn. simpl in Hn. lia.
  - intros [-> H]. destruct (find _ tbl) as [m|] eqn:F; [|reflexivity].
    apply find_some in F. destruct F as [Hin Hid].
    exfalso. apply H. apply in_map_iff. exists m. split; [lia|exact Hin].
Qed.

Lemma session_get_Overflow tbl pk :
  session_get tbl pk = Overflow <-> fits_int64 pk = false.
Proof.
  unfold session_get. destruct (fits_int64 pk).
  - destruct (find _ tbl); split; discriminate.
  - split; reflexivity.
Qed.

(** Deleting a list of rows one by one drops the rows with their keys. *)
Lemma fold_session_delete msgs :
  forall tbl,
    fold_left session_delete msgs tbl =
    filter (fun r => negb (existsb (fun m => id r =? id m) msgs)) tbl.
Proof.
  induction msgs as [|m msgs IH]; intro tbl; simpl.
  - symmetry. apply forallb_filter_id. apply forallb_forall. reflexivity.
  - rewrite IH. unfold session_delete.
    induction tbl as [|r tbl IHt]; simpl; [reflexivity|].
    destruct (id r =? id m); simpl; [exact IHt|].
    destruct (existsb _ msgs); simpl; rewrite IHt; reflexivity.
Qed.

(** With a primary key, the rows selected for deletion are the rows
    that go. *)
Lemma delete_selected (p : ChatMessage -> bool) tbl :
  NoDup (map id tbl) ->
  fold_left session_delete (filter p tbl) tbl =
  filter (fun r => negb (p r)) tbl.
Proof.
  intro Hnd. rewrite fold_session_delete.
  apply filter_ext_in. intros r Hr. f_equal.
  destruct (p r) eqn:Pr.
  - apply existsb_exists. exists r. split.
    + apply filter_In. split; assumption.
    + apply Z.eqb_refl.
  - destruct (existsb _ _) eqn:E; [|reflexivity].
    apply existsb_exists in E. destruct E as [m [Hm Hid]].
    apply filter_In in Hm. destruct Hm as [Hm Pm].
    assert (r = m); [|congruence].
    apply Z.eqb_eq in Hid.
    clear - Hnd Hr Hm Hid.
    induction tbl as [|x tbl IH]; [destruct Hr|].
    simpl in Hnd. inversion Hnd as [|? ? Hx Hnd']; subst.
    destruct Hr as [->|Hr], Hm as [->|Hm].
    + reflexivity.
    + exfalso. apply Hx. rewrite Hid. apply in_map, Hm.
    + exfalso. apply Hx. rewrite <- Hid. apply in_map, Hr.
    + apply IH; assumption.
Qed.

(** The rows of the original message's key are gone after the loop of
    deletions, whatever the keys of the table are. *)
Lemma deleted_key_is_gone (p : ChatMessage -> bool) tbl m :
  In m tbl -> p m = true ->
  ~ In (id m) (map id (fold_left session_delete (filter p tbl) tbl)).
Proof.
  intros Hin Pm H. rewrite fold_session_delete in H.
  apply in_map_iff in H. destruct H as [r [Hid Hr]].
  apply filter_In in Hr. destruct Hr as [_ Hr].
  apply negb_true_iff in Hr.
  assert (E : existsb (fun m0 => id r =? id m0) (filter p tbl) = true);
    [|congruence].
  apply existsb_exists. exists m. split.
  - apply filter_In. split; assumption.
  - lia.
Qed.

(** An oldest-first list splits at any instant. *)
Lemma sorted_split_at (t0 : Z) l :
  StronglySorted (holds created_at_asc) l ->
  l = filter (fun m => created_at m <? t0) l
      ++ filter (fun m => t0 <=? created_at m) l.
Proof.
  induction 1 as [|x l Hs IH Hall]; simpl; [reflexivity|].
  destruct (created_at x <? t0) eqn:E.
  - replace (t0 <=? created_at x) with false by lia.
    simpl. f_equal. exact IH.
  - replace (t0 <=? created_at x) with true by lia.
    assert (Hge : forall m, In m l -> t0 <= created_at m).
    { rewrite Forall_forall in Hall. intros m Hm. apply Hall in Hm.
      unfold holds, created_at_asc in Hm. lia. }
    rewrite (filter_ext_in (fun m => created_at m <? t0) (fun _ => false) l),
      filter_false by (intros m Hm; apply Hge in Hm; lia).
    simpl. f_equal. symmetry.
    apply forallb_filter_id, forallb_forall.
    intros m Hm. apply Hge in Hm. lia.
Qed.

Lemma filter_filter (p q : ChatMessage -> bool) l :
  filter p (filter q l) = filter (fun m => q m && p m) l.
Proof.
  induction l as [|x l IH]; simpl; [reflexivity|].
  destruct (q x); simpl; [destruct (p x)|]; rewrite IH; reflexivity.
Qed.

(** The conversation as listed after the rewind and the insert. *)
Lemma conversation_after_rewind tbl cid t0 new :
  conversation_id new = cid ->
  t0 < created_at new ->
  get_conversation_messages
    (filter (fun r => negb (to_delete cid t0 r)) tbl ++ [new]) cid =
  filter (fun m => created_at m <? t0) (get_conversation_messages tbl cid)
    ++ [new].
Proof.
  intros Hcid Hnew. unfold get_conversation_messages.
  rewrite filter_app. simpl.
  unfold in_conversation at 2. rewrite Hcid, conv_eqb_refl.
  rewrite filter_order_by
    by (apply created_at_asc_total || apply created_at_asc_trans).
  rewrite !filter_filter.
  rewrite (filter_ext_in
             (fun m => negb (to_delete cid t0 m) && in_conversation cid m)
             (fun m => in_conversation cid m && (created_at m <? t0)) tbl).
  - apply order_by_snoc. apply Forall_forall. intros x Hx.
    apply filter_In in Hx. destruct Hx as [_ Hx].
    apply andb_true_iff in Hx. destruct Hx as [_ Hx].
    unfold created_at_asc. lia.
  - intros m _. unfold to_delete.
    destruct (in_conversation cid m); simpl; [|reflexivity].
    rewrite andb_true_r. lia.
Qed.

(** The successful run of the session block, spelled out. *)
Lemma rewind_Some tbl request st original :
  NoDup (map id tbl) ->
  session_get tbl (RegenerateRequest.message_id request) = Found original ->
  role original = "user"%string ->
  rewind tbl request st =
  Returns (mkRewound
          (filter (fun r => negb (to_delete (conversation_id original)
                                            (created_at original) r)) tbl
           ++ [mkChatMessage (assigned_id st) "user"
                 (RegenerateRequest.new_prompt request) (utcnow st)
                 (conversation_id original)])
          (conversation_id original) (created_at original)
          (mkChatMessage (assigned_id st) "user"
             (RegenerateRequest.new_prompt request) (utcnow st)
             (conversation_id original))).
Proof.
  intros Hnd Hget Hrole. unfold rewind. rewrite Hget, Hrole. simpl.
  rewrite delete_selected by exact Hnd. reflexivity.
Qed.

Lemma rewind_None tbl request st :
  rewind tbl request st = Raise404 "Original user message not found" <->
  (session_get tbl (RegenerateRequest.message_id request) = Absent \/
   exists m, session_get tbl (RegenerateRequest.message_id request) = Found m
             /\ role m <> "user"%string).
Proof.
  unfold rewind.
  destruct (session_get tbl _) as [m| |].
  - destruct (String.eqb_spec (role m) "user") as [E|E]; simpl.
    + split; [discriminate|].
      intros [H|[m' [[= <-] H]]]; [discriminate|contradiction].
    + split; [|reflexivity]. intros _. right. exists m. auto.
  - split; auto.
  - split; [discriminate|].
    intros [H|[m' [H _]]]; discriminate.
Qed.

Lemma rewind_Overflow tbl request st :
  fits_int64 (RegenerateRequest.message_id request) = false ->
  rewind tbl request st = Raises OverflowError.
Proof.
  intro H. unfold rewind.
  rewrite (proj2 (session_get_Overflow tbl _) H). reflexivity.
Qed.

(* ================================================================== *)
(** * 12. The context assembler *)
(* ================================================================== *)

(** C2, as the code has it. When the timestamps of a conversation are
    pairwise distinct, the assembled context is a suffix of the
    conversation's messages listed oldest first: the most recent
    messages, in chronological order, each as its role and content. *)
Theorem context_is_recent_suffix :
  forall tbl cid,
    NoDup (map created_at (filter (in_conversation cid) tbl)) ->
    exists older kept,
      get_conversation_messages tbl cid = older ++ kept /\
      build_context tbl cid = map to_ollama kept.
Proof.
  intros tbl cid Hnd.
  destruct (taken_split (select_history tbl cid) 0) as [excluded [Hsplit _]].
  exists (rev excluded), (rev (taken (select_history tbl cid) 0)). split.
  - rewrite <- history_is_reversed_chronology by exact Hnd.
    rewrite Hsplit at 1. apply rev_app_distr.
  - rewrite build_context_taken. symmetry. apply map_rev.
Qed.

Lemma context_is_recent_suffix_witness :
  NoDup (map created_at
           (filter (in_conversation (Some 1)) Sample.long_table)) /\
  exists older kept,
    get_conversation_messages Sample.long_table (Some 1) = older ++ kept /\
    build_context Sample.long_table (Some 1) = map to_ollama kept.
Proof.
  split.
  - simpl. repeat constructor; simpl; intuition discriminate.
  - apply (context_is_recent_suffix Sample.long_table (Some 1)).
    simpl. repeat constructor; simpl; intuition discriminate.
Defined.

(** C2 as stated fails: of two stored messages that exceed the budget
    together only the newer is sent, which is no prefix of the
    conversation listed oldest first. *)
Lemma context_is_not_a_prefix :
  ~ exists rest,
      map to_ollama (get_conversation_messages Sample.long_table (Some 1)) =
      build_context Sample.long_table (Some 1) ++ rest.
Proof.
  assert (Hctx : build_context Sample.long_table (Some 1) =
                 [to_ollama Sample.long2]) by (vm_compute; reflexivity).
  assert (Hall : get_conversation_messages Sample.long_table (Some 1) =
                 [Sample.long1; Sample.long2]) by (vm_compute; reflexivity).
  intros [rest H]. rewrite Hctx, Hall in H.
  simpl in H. injection H as Hrole _. discriminate Hrole.
Qed.

(** C6. When the most recent message of the history is longer than the
    budget, the context is empty; and whatever the history, an entry of
    the context is a stored message of the conversation with its whole
    content. *)
Theorem oversized_latest_message_empties_context :
  forall tbl cid,
    (forall latest older,
        select_history tbl cid = latest :: older ->
        len (content latest) > CONTEXT_CHAR_LIMIT ->
        build_context tbl cid = []) /\
    (forall entry,
        In entry (build_context tbl cid) ->
        exists msg,
          In msg tbl /\ conversation_id msg = cid /\
          OllamaMessage.role entry = role msg /\
          OllamaMessage.content entry = content msg).
Proof.
  intros tbl cid. split.
  - intros latest older Hh Hlen. rewrite build_context_taken, Hh. simpl.
    destruct (len (content latest) >? CONTEXT_CHAR_LIMIT) eqn:E;
      [reflexivity|lia].
  - intros entry Hin. rewrite build_context_taken in Hin.
    apply in_rev in Hin.
    apply in_map_iff in Hin. destruct Hin as [msg [<- Hmsg]].
    destruct (taken_split (select_history tbl cid) 0) as [ex [Hsplit _]].
    assert (Hsel : In msg (select_history tbl cid))
      by (rewrite Hsplit; apply in_or_app; left; exact Hmsg).
    apply order_by_In in Hsel. apply filter_In in Hsel.
    destruct Hsel as [Htbl Hconv]. exists msg. repeat split; try assumption.
    unfold in_conversation, conv_eqb in Hconv.
    destruct (conversation_id msg), cid; try discriminate; try reflexivity.
    f_equal. lia.
Qed.

Lemma oversized_latest_message_empties_context_witness :
  select_history Sample.huge_table (Some 1) = [Sample.huge; Sample.m1] /\
  len (content Sample.huge) > CONTEXT_CHAR_LIMIT /\
  build_context Sample.huge_table (Some 1) = [].
Proof.
  assert (Hh : select_history Sample.huge_table (Some 1) =
               [Sample.huge; Sample.m1]) by (vm_compute; reflexivity).
  assert (Hl : len (content Sample.huge) > CONTEXT_CHAR_LIMIT)
    by (vm_compute; reflexivity).
  split; [exact Hh|]. split; [exact Hl|].
  exact (proj1 (oversized_latest_message_empties_context
                  Sample.huge_table (Some 1)) _ _ Hh Hl).
Defined.

(** C7. The budget is 8192 characters; the lengths of the messages in
    the context sum to at most the budget; the context is the history
    (newest first) up to, and without, the first message that would take
    the sum over the budget, so that message and all older ones are
    left out. *)
Theorem context_stays_within_budget :
  forall tbl cid,
    CONTEXT_CHAR_LIMIT = 8192 /\
    context_chars (build_context tbl cid) <= CONTEXT_CHAR_LIMIT /\
    exists included excluded,
      select_history tbl cid = included ++ excluded /\
      build_context tbl cid = rev (map to_ollama included) /\
      total_chars included = context_chars (build_context tbl cid) /\
      match excluded with
      | [] => True
      | msg :: _ =>
          total_chars included + len (content msg) > CONTEXT_CHAR_LIMIT
      end.
Proof.
  intros tbl cid. split; [reflexivity|].
  rewrite build_context_taken, context_chars_rev, context_chars_map.
  split.
  - pose proof (taken_budget (select_history tbl cid) 0) as H.
    assert (0 <= CONTEXT_CHAR_LIMIT) by (unfold CONTEXT_CHAR_LIMIT; lia).
    lia.
  - destruct (taken_split (select_history tbl cid) 0) as [ex [Hsplit Hex]].
    exists (taken (select_history tbl cid) 0), ex.
    repeat split; assumption.
Qed.

(* ================================================================== *)
(** * 13. The stream relay *)
(* ================================================================== *)

Section RelayRun.

Variable ollama : ChatPayload.t -> Response.t.
Variable stamps : nat -> Stamp.
Variable tbl : Table.
Variable request : ChatRequest.t.
Variable cid : option Z.

Lemma stream_on_error_status :
  Response.status_code (ollama (payload_for tbl request cid)) <> 200 ->
  stream_ollama_response ollama stamps tbl request cid =
  match Response.error_content (ollama (payload_for tbl request cid)) with
  | Text error_text =>
      mkOutcome [EvError ("Ollama API Error: " ++ error_text)%string]
                tbl Finished
  | NotUtf8 => mkOutcome [] tbl (Raised UnicodeDecodeError)
  end.
Proof.
  intro Hs. unfold stream_ollama_response.
  destruct (Response.status_code _ =? 200) eqn:E; [lia|].
  reflexivity.
Qed.

Lemma stream_on_ok_status :
  Response.status_code (ollama (payload_for tbl request cid)) = 200 ->
  exists st,
    relay_lines stamps cid
      (Response.aiter_lines (ollama (payload_for tbl request cid)))
      (mkRelay EmptyString tbl [] 0)
    = (st, exit (stream_ollama_response ollama stamps tbl request cid)) /\
    events (stream_ollama_response ollama stamps tbl request cid)
      = yielded st /\
    store (stream_ollama_response ollama stamps tbl request cid)
      = table st.
Proof.
  intro Hs. unfold stream_ollama_response.
  rewrite Hs. simpl.
  destruct (relay_lines _ _ _ _) as [st ex]. exists st. auto.
Qed.

Lemma stream_inv :
  store (stream_ollama_response ollama stamps tbl request cid)
    = tbl ++ done_messages
               (events (stream_ollama_response ollama stamps tbl
                          request cid)) /\
  (forall pre m post,
      events (stream_ollama_response ollama stamps tbl request cid)
        = pre ++ EvDone m :: post ->
      m = assistant_row stamps cid (List.length (done_messages pre))
                        (fragments pre)) /\
  (forall s,
      In (EvContent s)
         (events (stream_ollama_response ollama stamps tbl request cid)) ->
      s <> EmptyString).
Proof.
  destruct (Z.eq_dec
              (Response.status_code (ollama (payload_for tbl request cid)))
              200) as [Hs|Hs].
  - destruct (stream_on_ok_status Hs) as [st [Hrun [Hev Hst]]].
    pose proof (relay_lines_inv stamps cid tbl _ _ _ _
                  (relay_inv_start stamps cid tbl) Hrun)
      as (_ & Htab & _ & Hdone & Hevs).
    rewrite Hev, Hst. split; [exact Htab|]. split; [exact Hdone|].
    intros s Hin. apply (Hevs _ Hin).
  - rewrite (stream_on_error_status Hs).
    destruct (Response.error_content _); simpl; split;
      try (rewrite app_nil_r; reflexivity); split.
    + intros pre m post H.
      destruct pre as [|e [|e' pre]]; discriminate.
    + intros s0 [H|[]]. discriminate.
    + intros pre m post H. destruct pre; discriminate.
    + intros s0 [].
Qed.

Lemma stream_commit_count :
  (List.length
     (done_messages
        (events (stream_ollama_response ollama stamps tbl request cid)))
   <= done_lines
        (Response.aiter_lines (ollama (payload_for tbl request cid))))%nat
  /\
  (Response.status_code (ollama (payload_for tbl request cid)) = 200 ->
   exit (stream_ollama_response ollama stamps tbl request cid)
     = Finished ->
   List.length
     (done_messages
        (events (stream_ollama_response ollama stamps tbl request cid)))
   = done_lines
       (Response.aiter_lines (ollama (payload_for tbl request cid)))).
Proof.
  destruct (Z.eq_dec
              (Response.status_code (ollama (payload_for tbl request cid)))
              200) as [Hs|Hs].
  - destruct (stream_on_ok_status Hs) as [st [Hrun [Hev Hst]]].
    pose proof (relay_lines_inv stamps cid tbl _ _ _ _
                  (relay_inv_start stamps cid tbl) Hrun)
      as (_ & _ & Hcom & _ & _).
    apply relay_lines_commits in Hrun. simpl in Hrun.
    rewrite Hev, <- Hcom. split; [apply Hrun|]. intros _. apply Hrun.
  - rewrite (stream_on_error_status Hs).
    destruct (Response.error_content _); simpl;
      (split; [lia|contradiction]).
Qed.

End RelayRun.

Lemma done_messages_split m evs :
  In m (done_messages evs) ->
  exists pre post, evs = pre ++ EvDone m :: post.
Proof.
  induction evs as [|ev evs IH]; intro Hm; [destruct Hm|].
  destruct ev; simpl in Hm;
    try (destruct (IH Hm) as [pre [post ->]];
         eexists (_ :: pre), post; reflexivity).
  destruct Hm as [->|Hm].
  - exists [], evs. reflexivity.
  - destruct (IH Hm) as [pre [post ->]].
    eexists (_ :: pre), post. reflexivity.
Qed.

Lemma stream_inserts_assistant_rows ollama stamps tbl request cid :
  Forall (fun m =>
            role m = "assistant"%string /\ conversation_id m = cid /\
            exists pre post,
              events (stream_ollama_response ollama stamps tbl request cid)
                = pre ++ EvDone m :: post /\
              content m = fragments pre)
    (done_messages
       (events (stream_ollama_response ollama stamps tbl request cid))).
Proof.
  destruct (stream_inv ollama stamps tbl request cid) as (_ & Hdone & _).
  apply Forall_forall. intros m Hm.
  apply done_messages_split in Hm. destruct Hm as [pre [post Hsplit]].
  pose proof (Hdone _ _ _ Hsplit) as Hm.
  split; [rewrite Hm; reflexivity|]. split; [rewrite Hm; reflexivity|].
  exists pre, post. split; [exact Hsplit|]. rewrite Hm. reflexivity.
Qed.

Lemma done_messages_In pre m post :
  In m (done_messages (pre ++ EvDone m :: post)).
Proof.
  rewrite done_messages_app. apply in_or_app. right. left. reflexivity.
Qed.

Lemma fragments_without_content evs :
  forallb (fun ev => negb (is_content ev)) evs = true ->
  fragments evs = EmptyString.
Proof.
  induction evs as [|ev evs IH]; simpl; [reflexivity|].
  intro H. apply andb_true_iff in H. destruct H as [Hev H].
  destruct ev; simpl in Hev; try discriminate; apply IH, H.
Qed.

(** C1, as the code has it. In every run of the relay, a done event
    carries a message that is stored and whose content is the
    concatenation, in emission order, of the fragments of the
    content-delta events sent before it; when no content-delta event
    follows the done event, that is the concatenation of all fragments
    of the response. *)
Theorem done_message_holds_fragments_sent_before :
  forall ollama stamps tbl request cid pre message post,
    events (stream_ollama_response ollama stamps tbl request cid)
      = pre ++ EvDone message :: post ->
    content message = fragments pre /\
    role message = "assistant"%string /\
    conversation_id message = cid /\
    In message (store (stream_ollama_response ollama stamps tbl request cid)) /\
    (forallb (fun ev => negb (is_content ev)) post = true ->
     fragments (events (stream_ollama_response ollama stamps tbl request cid))
       = content message).
Proof.
  intros ollama stamps tbl request cid pre message post Hev.
  destruct (stream_inv ollama stamps tbl request cid) as (Hst & Hdone & _).
  pose proof (Hdone _ _ _ Hev) as ->. simpl.
  repeat split.
  - rewrite Hst, Hev. apply in_or_app. right. apply done_messages_In.
  - intro Hpost. rewrite Hev, fragments_app. simpl.
    rewrite (fragments_without_content _ Hpost). apply append_nil_r.
Qed.

Lemma done_message_holds_fragments_sent_before_witness :
  let out := stream_ollama_response
               (Sample.replies (Response.mk 200 (Text "") Sample.good_body))
               Sample.stamps Sample.chat_table Sample.request (Some 1) in
  let reply := mkChatMessage 6 "assistant" "Hello" 1000 (Some 1) in
  events out = [EvContent "Hel"; EvContent "lo"] ++ EvDone reply :: [] /\
  content reply = fragments [EvContent "Hel"; EvContent "lo"] /\
  In reply (store out) /\
  fragments (events out) = content reply.
Proof.
  intros out reply.
  assert (Hev : events out
                = [EvContent "Hel"; EvContent "lo"] ++ EvDone reply :: [])
    by (vm_compute; reflexivity).
  destruct (done_message_holds_fragments_sent_before
              (Sample.replies (Response.mk 200 (Text "") Sample.good_body))
              Sample.stamps Sample.chat_table Sample.request (Some 1)
              _ _ _ Hev) as (Hc & _ & _ & Hin & Hall).
  split; [exact Hev|]. split; [exact Hc|]. split; [exact Hin|].
  apply Hall. reflexivity.
Defined.

(** C1 as stated fails: the loop goes on after the flagged line, so a
    fragment that arrives after it is sent but is not in the stored
    message. *)
Lemma fragments_after_done_are_not_stored :
  let response := Response.mk 200 (Text "") Sample.late_body in
  let out := stream_ollama_response (Sample.replies response)
               Sample.stamps Sample.chat_table Sample.request (Some 1) in
  Response.status_code response = 200 /\
  existsb carries_done (Response.aiter_lines response) = true /\
  ~ (forall message,
        In (EvDone message) (events out) ->
        In message (store out) ->
        fragments (events out) = content message).
Proof.
  intros response out. split; [reflexivity|]. split; [reflexivity|].
  intro H.
  specialize (H (mkChatMessage 6 "assistant" "a" 1000 (Some 1))).
  assert (Hev : events out =
                [EvContent "a";
                 EvDone (mkChatMessage 6 "assistant" "a" 1000 (Some 1));
                 EvContent "b"]) by (vm_compute; reflexivity).
  assert (Hst : store out =
                Sample.chat_table
                  ++ [mkChatMessage 6 "assistant" "a" 1000 (Some 1)])
    by (vm_compute; reflexivity).
  rewrite Hev, Hst in H.
  assert (Hneq : fragments
                   [EvContent "a";
                    EvDone (mkChatMessage 6 "assistant" "a" 1000 (Some 1));
                    EvContent "b"]
                 <> content (mkChatMessage 6 "assistant" "a" 1000 (Some 1)))
    by (simpl; discriminate).
  apply Hneq, H.
  - right. left. reflexivity.
  - apply in_or_app. right. left. reflexivity.
Qed.




(** C5, as the code has it. When the upstream status is not 200 and
    the body decodes as UTF-8, the relay sends the error event with the
    body text and nothing else, and ends without an exception. When the
    body does not decode, [decode()] raises before the [yield]: nothing
    is sent and the generator ends with that exception. In both cases
    there is no content-delta event, no done event, and the table is
    left as it was. *)
Theorem error_status_yields_one_error_event :
  forall ollama stamps tbl request cid,
    let response := ollama (payload_for tbl request cid) in
    let out := stream_ollama_response ollama stamps tbl request cid in
    Response.status_code response <> 200 ->
    (forall error_text,
        Response.error_content response = Text error_text ->
        events out =
          [EvError ("Ollama API Error: " ++ error_text)%string] /\
        exit out = Finished) /\
    (Response.error_content response = NotUtf8 ->
     events out = [] /\ exit out = Raised UnicodeDecodeError) /\
    store out = tbl /\
    done_messages (events out) = [] /\
    filter is_content (events out) = [].
Proof.
  intros ollama stamps tbl request cid response out Hs. unfold out.
  rewrite (stream_on_error_status ollama stamps tbl request cid Hs).
  fold response. destruct (Response.error_content response) as [s|]; simpl.
  - split; [intros error_text [= <-]; auto|].
    split; [discriminate|]. auto.
  - split; [discriminate|]. auto.
Qed.

Lemma error_status_yields_one_error_event_witness :
  let response :=
    Response.mk 500 (Text "model not found") Sample.good_body in
  let out := stream_ollama_response (Sample.replies response)
               Sample.stamps Sample.chat_table Sample.request (Some 1) in
  Response.status_code response <> 200 /\
  Response.error_content response = Text "model not found" /\
  events out = [EvError "Ollama API Error: model not found"] /\
  exit out = Finished /\
  store out = Sample.chat_table.
Proof.
  intros response out.
  assert (Hs : Response.status_code response <> 200)
    by (simpl; discriminate).
  assert (Ht : Response.error_content response = Text "model not found")
    by reflexivity.
  split; [exact Hs|]. split; [exact Ht|].
  destruct (error_status_yields_one_error_event
              (Sample.replies response) Sample.stamps Sample.chat_table
              Sample.request (Some 1) Hs) as (Htext & _ & Hst & _).
  destruct (Htext _ Ht) as [Hev Hex].
  split; [exact Hev|]. split; [exact Hex|exact Hst].
Defined.

(** C5 as stated fails: a status 500 whose body is not UTF-8 makes
    [error_content.decode()] raise, so the relay sends no error event. *)
Lemma undecodable_error_body_sends_no_event :
  let response := Response.mk 500 NotUtf8 [] in
  let out := stream_ollama_response (Sample.replies response)
               Sample.stamps Sample.chat_table Sample.request (Some 1) in
  Response.status_code response <> 200 /\
  events out = [] /\
  exit out = Raised UnicodeDecodeError /\
  ~ (exists error, events out = [EvError error] /\ exit out = Finished).
Proof.
  intros response out. split; [simpl; discriminate|].
  split; [reflexivity|]. split; [reflexivity|].
  intros [error [H _]]. discriminate H.
Qed.

(** C9. A line that parses to an object whose message has the empty
    string as content adds nothing to the accumulator and sends no
    content-delta event; and every content-delta event that a run of
    the relay sends carries a non-empty fragment. *)
Theorem empty_fragment_is_skipped :
  (forall stamps cid st fields mfields st' ex,
      dict_get fields "message" = Some (JObj mfields) ->
      dict_get mfields "content" = Some (JStr EmptyString) ->
      on_line stamps cid st (Parsed (JObj fields)) = (st', ex) ->
      full_response_content st' = full_response_content st /\
      filter is_content (yielded st') = filter is_content (yielded st) /\
      ex = Finished) /\
  (forall ollama stamps tbl request cid s,
      In (EvContent s)
         (events (stream_ollama_response ollama stamps tbl request cid)) ->
      s <> EmptyString).
Proof.
  split.
  - intros stamps cid st fields mfields st' ex Hm Hc H.
    unfold on_line, content_piece_of in H. rewrite Hm, Hc in H.
    simpl in H.
    destruct (truthy _) in H; injection H as <- <-; simpl.
    + rewrite filter_app. simpl. rewrite app_nil_r. auto.
    + auto.
  - intros ollama stamps tbl request cid s Hin.
    destruct (stream_inv ollama stamps tbl request cid) as (_ & _ & H).
    apply H, Hin.
Qed.

Lemma empty_fragment_is_skipped_witness :
  let st := mkRelay "Hello" Sample.chat_table
                    [EvContent "Hel"; EvContent "lo"] 0 in
  let fields := [("message"%string, JObj [("content"%string, JStr "")]);
                 ("done"%string, JBool false)] in
  dict_get fields "message" = Some (JObj [("content"%string, JStr "")]) /\
  dict_get [("content"%string, JStr "")] "content" = Some (JStr "") /\
  on_line Sample.stamps (Some 1) st (Parsed (JObj fields)) = (st, Finished) /\
  full_response_content st = "Hello"%string /\
  filter is_content (yielded st) = [EvContent "Hel"; EvContent "lo"].
Proof.
  intros st fields.
  assert (H1 : dict_get fields "message"
               = Some (JObj [("content"%string, JStr "")])) by reflexivity.
  assert (H2 : dict_get [("content"%string, JStr "")] "content"
               = Some (JStr "")) by reflexivity.
  assert (H3 : on_line Sample.stamps (Some 1) st (Parsed (JObj fields))
               = (st, Finished)) by reflexivity.
  destruct (proj1 empty_fragment_is_skipped Sample.stamps (Some 1) st
              fields _ st Finished H1 H2 H3) as (Ha & Hf & _).
  repeat split; try assumption; reflexivity.
Defined.

(* ================================================================== *)
(** * 14. The regeneration coordinator *)
(* ================================================================== *)

Lemma session_get_app tbl1 tbl2 pk :
  session_get (tbl1 ++ tbl2) pk =
  match session_get tbl1 pk with
  | Found m => Found m
  | Absent => session_get tbl2 pk
  | Overflow => Overflow
  end.
Proof.
  unfold session_get. destruct (fits_int64 pk); [|reflexivity].
  induction tbl1 as [|x tbl1 IH]; simpl; [reflexivity|].
  destruct (id x =? pk); [reflexivity|exact IH].
Qed.

Lemma to_delete_original original :
  to_delete (conversation_id original) (created_at original) original = true.
Proof.
  unfold to_delete, in_conversation. rewrite conv_eqb_refl. simpl. lia.
Qed.

Lemma regenerate_not_found ollama st stamps tbl request :
  rewind tbl request st = Raise404 "Original user message not found" ->
  regenerate_from_prompt ollama st stamps tbl request =
  HTTPException 404 "Original user message not found" tbl.
Proof.
  intro H. unfold regenerate_from_prompt. rewrite H. reflexivity.
Qed.

(** What a regeneration that streams has found and left, whatever the
    keys of the table are. *)
Lemma regenerate_streams_inv ollama st stamps tbl request out :
  regenerate_from_prompt ollama st stamps tbl request = StreamingResponse out ->
  exists original,
    session_get tbl (RegenerateRequest.message_id request) = Found original /\
    role original = "user"%string /\
    store out =
      store
        (stream_ollama_response ollama stamps
           (fold_left session_delete
              (filter (to_delete (conversation_id original)
                                 (created_at original)) tbl) tbl
            ++ [mkChatMessage (assigned_id st) "user"
                  (RegenerateRequest.new_prompt request) (utcnow st)
                  (conversation_id original)])
           (ChatRequest.mk (RegenerateRequest.new_prompt request)
              (conversation_id original) (RegenerateRequest.model request))
           (conversation_id original)).
Proof.
  unfold regenerate_from_prompt, rewind.
  destruct (session_get tbl (RegenerateRequest.message_id request))
    as [original| |] eqn:Hget; try discriminate.
  destruct (String.eqb_spec (role original) "user") as [E|E]; simpl;
    [|discriminate].
  intros [= <-]. exists original. auto.
Qed.

(** After the deletions of a rewind, the key of the original message is
    the key of no row. *)
Lemma rewound_key_is_absent tbl pk original :
  session_get tbl pk = Found original ->
  session_get
    (fold_left session_delete
       (filter (to_delete (conversation_id original) (created_at original))
               tbl) tbl) pk = Absent.
Proof.
  intro Hget. destruct (session_get_Some _ _ _ Hget) as [Hin Hid].
  apply session_get_None. split.
  - unfold session_get in Hget.
    destruct (fits_int64 pk); [reflexivity|discriminate].
  - rewrite <- Hid.
    apply deleted_key_is_gone; [exact Hin|apply to_delete_original].
Qed.

(** The conversation after the rewind and the insert holds the rows it
    listed before [t0] and the new row, wherever the clock puts it. *)
Lemma conversation_after_rewind_perm tbl cid t0 new :
  conversation_id new = cid ->
  Permutation
    (filter (fun m => created_at m <? t0) (get_conversation_messages tbl cid)
       ++ [new])
    (get_conversation_messages
       (filter (fun r => negb (to_delete cid t0 r)) tbl ++ [new]) cid).
Proof.
  intro Hcid. unfold get_conversation_messages.
  eapply perm_trans; [|apply order_by_perm].
  rewrite filter_app. simpl.
  unfold in_conversation at 3. rewrite Hcid, conv_eqb_refl.
  apply Permutation_app_tail.
  rewrite filter_order_by
    by (apply created_at_asc_total || apply created_at_asc_trans).
  eapply perm_trans; [apply Permutation_sym, order_by_perm|].
  rewrite !filter_filter.
  rewrite (filter_ext_in
             (fun m => negb (to_delete cid t0 m) && in_conversation cid m)
             (fun m => in_conversation cid m && (created_at m <? t0)) tbl).
  - apply Permutation_refl.
  - intros m _. unfold to_delete.
    destruct (in_conversation cid m); simpl; [|reflexivity].
    rewrite andb_true_r. lia.
Qed.

(** C4, as the code has it. Regenerating from a stored user message
    with timestamp [t0], primary keys being unique: the table loses
    exactly the rows of the conversation with a timestamp at or after
    [t0], the original among them, and gains one user row with the new
    prompt, stamped with what the clock reads when it is built. The
    conversation then holds the messages it listed before [t0] and the
    new message; when that clock reading is later than [t0], it lists
    that strict prefix followed by the new message. *)
Theorem regenerate_rewinds_conversation :
  forall tbl request st original,
    NoDup (map id tbl) ->
    session_get tbl (RegenerateRequest.message_id request) = Found original ->
    role original = "user"%string ->
    let cid := conversation_id original in
    let t0 := created_at original in
    let new_user_message :=
      mkChatMessage (assigned_id st) "user"
        (RegenerateRequest.new_prompt request) (utcnow st) cid in
    let before := get_conversation_messages tbl cid in
    exists rw removed,
      rewind tbl request st = Returns rw /\
      rw_new_user_message rw = new_user_message /\
      rw_table rw =
        filter (fun m => negb (in_conversation cid m
                               && (t0 <=? created_at m))) tbl
          ++ [new_user_message] /\
      before = filter (fun m => created_at m <? t0) before ++ removed /\
      In original removed /\
      Forall (fun m => t0 <= created_at m) removed /\
      created_at new_user_message = utcnow st /\
      Permutation
        (filter (fun m => created_at m <? t0) before ++ [new_user_message])
        (get_conversation_messages (rw_table rw) cid) /\
      (t0 < utcnow st ->
       get_conversation_messages (rw_table rw) cid =
         filter (fun m => created_at m <? t0) before ++ [new_user_message]).
Proof.
  intros tbl request st original Hnd Hget Hrole cid t0 new before.
  pose proof (rewind_Some tbl request st original Hnd Hget Hrole) as Hrw.
  fold cid t0 new in Hrw.
  exists (mkRewound
            (filter (fun r => negb (to_delete cid t0 r)) tbl ++ [new])
            cid t0 new),
         (filter (fun m => t0 <=? created_at m) before).
  destruct (session_get_Some _ _ _ Hget) as [Hin _].
  assert (Hsorted : StronglySorted (holds created_at_asc) before).
  { apply order_by_sorted;
      [apply created_at_asc_total|apply created_at_asc_trans]. }
  split; [exact Hrw|]. split; [reflexivity|]. split; [reflexivity|].
  split; [apply sorted_split_at, Hsorted|]. split.
  - apply filter_In. split; [|unfold t0; lia].
    apply order_by_In, filter_In. split; [exact Hin|].
    unfold in_conversation, cid. apply conv_eqb_refl.
  - split.
    + apply Forall_forall. intros m Hm. apply filter_In in Hm. lia.
    + split; [reflexivity|]. split.
      * apply conversation_after_rewind_perm. reflexivity.
      * intro Hclock.
        apply conversation_after_rewind; [reflexivity|exact Hclock].
Qed.

Lemma regenerate_rewinds_conversation_witness :
  let new_user_message := mkChatMessage 6 "user" "Other" 500 (Some 1) in
  NoDup (map id Sample.chat_table) /\
  session_get Sample.chat_table
    (RegenerateRequest.message_id Sample.regen) = Found Sample.m3 /\
  role Sample.m3 = "user"%string /\
  created_at Sample.m3 < utcnow Sample.stamp /\
  exists rw,
    rewind Sample.chat_table Sample.regen Sample.stamp = Returns rw /\
    rw_table rw =
      [Sample.m1; Sample.m2; Sample.other; new_user_message] /\
    get_conversation_messages (rw_table rw) (Some 1) =
      [Sample.m1; Sample.m2; new_user_message].
Proof.
  intro new.
  assert (H1 : NoDup (map id Sample.chat_table))
    by (simpl; repeat constructor; simpl; intuition discriminate).
  assert (H2 : session_get Sample.chat_table
                 (RegenerateRequest.message_id Sample.regen)
               = Found Sample.m3) by reflexivity.
  assert (H3 : role Sample.m3 = "user"%string) by reflexivity.
  assert (H4 : created_at Sample.m3 < utcnow Sample.stamp)
    by (simpl; lia).
  split; [exact H1|]. split; [exact H2|]. split; [exact H3|].
  split; [exact H4|].
  destruct (regenerate_rewinds_conversation
              Sample.chat_table Sample.regen Sample.stamp Sample.m3
              H1 H2 H3)
    as [rw [removed (Hrw & _ & Htab & _ & _ & _ & _ & _ & Hconv)]].
  exists rw. split; [exact Hrw|]. split.
  - etransitivity; [exact Htab|reflexivity].
  - etransitivity; [exact (Hconv H4)|reflexivity].
Defined.

(** C4 as stated fails when the clock read for the new message is not
    later than [t0]: with the original at 30 and a reading of 15, the
    new message is not later than [t0] and is listed between the two
    older messages, not after them. *)
Lemma early_clock_misplaces_the_new_message :
  let st := mkStamp 6 15 in
  let new_user_message := mkChatMessage 6 "user" "Other" 15 (Some 1) in
  session_get Sample.chat_table
    (RegenerateRequest.message_id Sample.regen) = Found Sample.m3 /\
  exists rw,
    rewind Sample.chat_table Sample.regen st = Returns rw /\
    rw_new_user_message rw = new_user_message /\
    ~ (created_at Sample.m3 < created_at (rw_new_user_message rw)) /\
    get_conversation_messages (rw_table rw) (Some 1) =
      [Sample.m1; new_user_message; Sample.m2] /\
    get_conversation_messages (rw_table rw) (Some 1) <>
      filter (fun m => created_at m <? created_at Sample.m3)
             (get_conversation_messages Sample.chat_table (Some 1))
        ++ [new_user_message].
Proof.
  intros st new. split; [reflexivity|].
  eexists. split; [reflexivity|]. simpl.
  split; [reflexivity|]. split; [lia|].
  split; [reflexivity|]. vm_compute. discriminate.
Qed.

(** C8, as the code has it. A regeneration whose [message_id] is in
    the signed 64-bit range and is the key of no row, or is the key of a
    row whose role is not [user], answers 404 and leaves the table as it
    was; a [message_id] outside that range makes the lookup raise
    [OverflowError], and the table is left as it was too. An id that a
    completed regeneration has consumed is answered 404 in this way
    provided the database did not give it to the replacement user
    message; if it did, the id is the key of that user message and a
    regeneration from it goes through. *)
Theorem regenerate_fails_without_user_target :
  (forall ollama st stamps tbl request,
      (session_get tbl (RegenerateRequest.message_id request) = Absent \/
       exists m,
         session_get tbl (RegenerateRequest.message_id request) = Found m /\
         role m <> "user"%string) ->
      regenerate_from_prompt ollama st stamps tbl request =
        HTTPException 404 "Original user message not found" tbl /\
      table_after (regenerate_from_prompt ollama st stamps tbl request)
        = tbl) /\
  (forall tbl pk,
      session_get tbl pk = Absent <->
      (- 2 ^ 63 <= pk < 2 ^ 63) /\ ~ In pk (map id tbl)) /\
  (forall ollama st stamps tbl request,
      ~ (- 2 ^ 63 <= RegenerateRequest.message_id request < 2 ^ 63) ->
      regenerate_from_prompt ollama st stamps tbl request =
        Unhandled OverflowError tbl) /\
  (forall ollama st stamps tbl request out,
      regenerate_from_prompt ollama st stamps tbl request
        = StreamingResponse out ->
      assigned_id st <> RegenerateRequest.message_id request ->
      forall ollama' st' stamps' request',
        RegenerateRequest.message_id request'
          = RegenerateRequest.message_id request ->
        regenerate_from_prompt ollama' st' stamps' (store out) request' =
          HTTPException 404 "Original user message not found" (store out)) /\
  (forall ollama st stamps tbl request out,
      regenerate_from_prompt ollama st stamps tbl request
        = StreamingResponse out ->
      assigned_id st = RegenerateRequest.message_id request ->
      exists cid,
        session_get (store out) (RegenerateRequest.message_id request) =
          Found (mkChatMessage (assigned_id st) "user"
                   (RegenerateRequest.new_prompt request) (utcnow st) cid) /\
        forall ollama' st' stamps' request',
          RegenerateRequest.message_id request'
            = RegenerateRequest.message_id request ->
          exists out',
            regenerate_from_prompt ollama' st' stamps' (store out) request'
              = StreamingResponse out').
Proof.
  split; [|split; [|split; [|split]]].
  - intros ollama st stamps tbl request H.
    apply rewind_None with (st := st) in H.
    rewrite (regenerate_not_found ollama st stamps tbl request H).
    split; reflexivity.
  - intros tbl pk. rewrite session_get_None. unfold fits_int64.
    rewrite andb_true_iff. split; intros [Hr Hn]; (split; [lia|exact Hn]).
  - intros ollama st stamps tbl request Hout.
    unfold regenerate_from_prompt. rewrite rewind_Overflow; [reflexivity|].
    unfold fits_int64. apply andb_false_iff. lia.
  - intros ollama st stamps tbl request out Hrun Hfresh
           ollama' st' stamps' request' Hsame.
    destruct (regenerate_streams_inv _ _ _ _ _ _ Hrun)
      as (original & Hget & Hrole & Hout).
    apply regenerate_not_found. apply rewind_None. rewrite Hsame, Hout.
    destruct (session_get_Some _ _ _ Hget) as [Hin Hid].
    set (chat := ChatRequest.mk _ _ _).
    set (committed := _ ++ [_]).
    destruct (stream_inv ollama stamps committed chat
                (conversation_id original)) as (Hst & _ & _).
    pose proof (stream_inserts_assistant_rows ollama stamps committed chat
                  (conversation_id original)) as Hroles.
    rewrite Hst. unfold committed.
    rewrite !session_get_app.
    rewrite (rewound_key_is_absent _ _ _ Hget).
    assert (Hnew : session_get
              [mkChatMessage (assigned_id st) "user"
                 (RegenerateRequest.new_prompt request) (utcnow st)
                 (conversation_id original)]
              (RegenerateRequest.message_id request) = Absent).
    { apply session_get_None. split.
      - apply (proj1 (session_get_None _ _)
                 (rewound_key_is_absent _ _ _ Hget)).
      - simpl. intros [E|[]]. apply Hfresh, E. }
    rewrite Hnew.
    destruct (session_get (done_messages _) _) as [m| |] eqn:Hm.
    + right. exists m. split; [reflexivity|].
      apply session_get_Some in Hm. destruct Hm as [Hm _].
      rewrite Forall_forall in Hroles. destruct (Hroles _ Hm) as [Hr _].
      rewrite Hr. discriminate.
    + left. reflexivity.
    + exfalso. apply session_get_Overflow in Hm.
      rewrite (proj1 (proj1 (session_get_None _ _)
                        (rewound_key_is_absent _ _ _ Hget))) in Hm.
      discriminate.
  - intros ollama st stamps tbl request out Hrun Hsame.
    destruct (regenerate_streams_inv _ _ _ _ _ _ Hrun)
      as (original & Hget & Hrole & Hout).
    exists (conversation_id original).
    assert (Hfound :
      session_get (store out) (RegenerateRequest.message_id request) =
      Found (mkChatMessage (assigned_id st) "user"
               (RegenerateRequest.new_prompt request) (utcnow st)
               (conversation_id original))).
    { rewrite Hout.
      set (chat := ChatRequest.mk _ _ _).
      set (committed := _ ++ [_]).
      destruct (stream_inv ollama stamps committed chat
                  (conversation_id original)) as (Hst & _ & _).
      rewrite Hst. unfold committed. rewrite !session_get_app.
      rewrite (rewound_key_is_absent _ _ _ Hget).
      unfold session_get.
      rewrite (proj1 (proj1 (session_get_None _ _)
                        (rewound_key_is_absent _ _ _ Hget))).
      simpl. rewrite Hsame, Z.eqb_refl. reflexivity. }
    split; [exact Hfound|].
    intros ollama' st' stamps' request' Hid.
    unfold regenerate_from_prompt, rewind. rewrite Hid, Hfound. simpl.
    eexists. reflexivity.
Qed.

Lemma regenerate_fails_without_user_target_witness :
  let backend :=
    Sample.replies (Response.mk 200 (Text "") Sample.good_body) in
  let wrong := RegenerateRequest.mk 2 "Other" "llama3" in
  let huge := RegenerateRequest.mk (2 ^ 63) "Other" "llama3" in
  let first :=
    regenerate_from_prompt backend Sample.stamp Sample.regen_stamps
      Sample.chat_table Sample.regen in
  (* an assistant message as target *)
  (exists m,
     session_get Sample.chat_table (RegenerateRequest.message_id wrong)
       = Found m /\ role m <> "user"%string) /\
  table_after
    (regenerate_from_prompt backend Sample.stamp Sample.regen_stamps
       Sample.chat_table wrong) = Sample.chat_table /\
  (* a key that SQLite cannot bind *)
  ~ (- 2 ^ 63 <= RegenerateRequest.message_id huge < 2 ^ 63) /\
  regenerate_from_prompt backend Sample.stamp Sample.regen_stamps
    Sample.chat_table huge = Unhandled OverflowError Sample.chat_table /\
  (* the same target twice *)
  assigned_id Sample.stamp <> RegenerateRequest.message_id Sample.regen /\
  regenerate_from_prompt backend Sample.stamp Sample.regen_stamps
    (table_after first) Sample.regen =
    HTTPException 404 "Original user message not found" (table_after first).
Proof.
  intros backend wrong huge first.
  assert (H1 : exists m,
             session_get Sample.chat_table
               (RegenerateRequest.message_id wrong) = Found m /\
             role m <> "user"%string)
    by (exists Sample.m2; split; [reflexivity|discriminate]).
  assert (H2 : assigned_id Sample.stamp
               <> RegenerateRequest.message_id Sample.regen)
    by (simpl; discriminate).
  assert (H3 : ~ (- 2 ^ 63 <= RegenerateRequest.message_id huge < 2 ^ 63))
    by (simpl; lia).
  destruct regenerate_fails_without_user_target
    as (Hmiss & _ & Hbig & Hused & _).
  split; [exact H1|]. split.
  - apply (Hmiss backend Sample.stamp Sample.regen_stamps
             Sample.chat_table wrong).
    right. exact H1.
  - split; [exact H3|]. split.
    + exact (Hbig backend Sample.stamp Sample.regen_stamps
               Sample.chat_table huge H3).
    + split; [exact H2|].
      exact (Hused backend Sample.stamp Sample.regen_stamps
               Sample.chat_table Sample.regen _ eq_refl H2
               backend Sample.stamp Sample.regen_stamps Sample.regen
               eq_refl).
Defined.

(** C8 as stated fails for an id that a completed regeneration has
    consumed. The first regeneration empties the table, so SQLite gives
    the replacement user message the key 1 again (and the reply the key
    2); regenerating from id 1 a second time finds that user message
    and goes through instead of answering 404. *)
Lemma consumed_id_names_the_replacement :
  let backend := Sample.replies (Response.mk 200 (Text "") Sample.good_body) in
  let first :=
    regenerate_from_prompt backend Sample.first_stamp Sample.first_stamps
      Sample.turn_table Sample.again in
  let second :=
    regenerate_from_prompt backend Sample.second_stamp Sample.second_stamps
      (table_after first) Sample.again in
  session_get Sample.turn_table 1 = Found Sample.m1 /\
  assigned_id Sample.first_stamp =
    next_rowid (filter (fun m => negb (to_delete (Some 1) 10 m))
                       Sample.turn_table) /\
  table_after first =
    [mkChatMessage 1 "user" "Hi again" 500 (Some 1);
     mkChatMessage 2 "assistant" "Hello" 600 (Some 1)] /\
  session_get (table_after first) 1 =
    Found (mkChatMessage 1 "user" "Hi again" 500 (Some 1)) /\
  ~ (exists status detail tbl', second = HTTPException status detail tbl') /\
  table_after second <> table_after first.
Proof.
  intros backend first second.
  split; [reflexivity|]. split; [reflexivity|].
  split; [vm_compute; reflexivity|]. split; [vm_compute; reflexivity|].
  split.
  - intros (status & detail & tbl' & H). vm_compute in H. discriminate H.
  - vm_compute. discriminate.
Qed.

(** C10. Regenerating from a stored user message, primary keys being
    unique: the payload posted to the backend is built from the table
    that already has the suffix deleted and the replacement user
    message inserted. When the backend then answers with a status other
    than 200, the stream is the initial event followed by the error
    event (or by nothing, when the error body does not decode and the
    generator raises), and the table stays that committed table: the
    rows the conversation listed before the original message and the
    new user message, with no new assistant message. The conversation
    lists that prefix followed by the new message when the clock read
    for it is later than the original's timestamp. *)
Theorem failed_upstream_keeps_rewound_conversation :
  forall ollama st stamps tbl request original,
    NoDup (map id tbl) ->
    session_get tbl (RegenerateRequest.message_id request) = Found original ->
    role original = "user"%string ->
    let cid := conversation_id original in
    let t0 := created_at original in
    let new_user_message :=
      mkChatMessage (assigned_id st) "user"
        (RegenerateRequest.new_prompt request) (utcnow st) cid in
    let committed :=
      filter (fun m => negb (to_delete cid t0 m)) tbl
        ++ [new_user_message] in
    let chat_request :=
      ChatRequest.mk (RegenerateRequest.new_prompt request) cid
                     (RegenerateRequest.model request) in
    let response := ollama (payload_for committed chat_request cid) in
    Response.status_code response <> 200 ->
    exists out,
      regenerate_from_prompt ollama st stamps tbl request
        = StreamingResponse out /\
      store out = committed /\
      (forall error_text,
          Response.error_content response = Text error_text ->
          events out =
            [EvInitial new_user_message cid;
             EvError ("Ollama API Error: " ++ error_text)%string] /\
          exit out = Finished) /\
      (Response.error_content response = NotUtf8 ->
       events out = [EvInitial new_user_message cid] /\
       exit out = Raised UnicodeDecodeError) /\
      Permutation
        (filter (fun m => created_at m <? t0)
                (get_conversation_messages tbl cid)
           ++ [new_user_message])
        (get_conversation_messages (store out) cid) /\
      (t0 < utcnow st ->
       get_conversation_messages (store out) cid =
         filter (fun m => created_at m <? t0)
                (get_conversation_messages tbl cid)
           ++ [new_user_message]) /\
      (forall m, In m (store out) -> role m = "assistant"%string ->
                 In m tbl).
Proof.
  intros ollama st stamps tbl request original Hnd Hget Hrole
         cid t0 new committed chat response Hs.
  pose proof (rewind_Some tbl request st original Hnd Hget Hrole) as Hrw.
  fold cid t0 new committed in Hrw.
  unfold regenerate_from_prompt. rewrite Hrw. cbn [rw_table
    rw_conversation_id rw_new_user_message]. fold chat.
  rewrite (stream_on_error_status ollama stamps committed chat cid Hs).
  fold response. eexists. split; [reflexivity|].
  assert (Hstore : store
            match Response.error_content response with
            | Text error_text =>
                mkOutcome
                  [EvError ("Ollama API Error: " ++ error_text)%string]
                  committed Finished
            | NotUtf8 => mkOutcome [] committed (Raised UnicodeDecodeError)
            end = committed)
    by (destruct (Response.error_content response); reflexivity).
  cbn [store events exit]. rewrite Hstore.
  split; [reflexivity|]. split; [|split; [|split; [|split]]].
  - intros error_text Ht. rewrite Ht. split; reflexivity.
  - intros Ht. rewrite Ht. split; reflexivity.
  - apply conversation_after_rewind_perm. reflexivity.
  - intro Hclock.
    apply conversation_after_rewind; [reflexivity|exact Hclock].
  - intros m Hm Hr. unfold committed in Hm. apply in_app_or in Hm.
    destruct Hm as [Hm|[<-|[]]].
    + apply filter_In in Hm. apply Hm.
    + discriminate Hr.
Qed.

Lemma failed_upstream_keeps_rewound_conversation_witness :
  let backend := Sample.replies (Response.mk 500 (Text "overloaded") []) in
  let new_user_message := mkChatMessage 6 "user" "Other" 500 (Some 1) in
  NoDup (map id Sample.chat_table) /\
  session_get Sample.chat_table
    (RegenerateRequest.message_id Sample.regen) = Found Sample.m3 /\
  role Sample.m3 = "user"%string /\
  created_at Sample.m3 < utcnow Sample.stamp /\
  exists out,
    regenerate_from_prompt backend Sample.stamp Sample.regen_stamps
      Sample.chat_table Sample.regen = StreamingResponse out /\
    events out = [EvInitial new_user_message (Some 1);
                  EvError "Ollama API Error: overloaded"] /\
    store out = [Sample.m1; Sample.m2; Sample.other; new_user_message] /\
    get_conversation_messages (store out) (Some 1) =
      [Sample.m1; Sample.m2; new_user_message].
Proof.
  intros backend new.
  assert (H1 : NoDup (map id Sample.chat_table))
    by (simpl; repeat constructor; simpl; intuition discriminate).
  assert (H2 : session_get Sample.chat_table
                 (RegenerateRequest.message_id Sample.regen)
               = Found Sample.m3) by reflexivity.
  assert (H3 : role Sample.m3 = "user"%string) by reflexivity.
  assert (H4 : created_at Sample.m3 < utcnow Sample.stamp)
    by (simpl; lia).
  assert (H5 : Response.status_code
                 (Response.mk 500 (Text "overloaded") []) <> 200)
    by (simpl; discriminate).
  split; [exact H1|]. split; [exact H2|]. split; [exact H3|].
  split; [exact H4|].
  destruct (failed_upstream_keeps_rewound_conversation
              backend Sample.stamp Sample.regen_stamps Sample.chat_table
              Sample.regen Sample.m3 H1 H2 H3 H5)
    as [out (Hrun & Hst & Htext & _ & _ & Hconv & _)].
  exists out. split; [exact Hrun|]. split.
  - etransitivity; [exact (proj1 (Htext _ eq_refl))|reflexivity].
  - split.
    + etransitivity; [exact Hst|reflexivity].
    + etransitivity; [exact (Hconv H4)|reflexivity].
Defined.

(* ================================================================== *)
(** * 15. Listings *)
(* ================================================================== *)

Lemma conv_eqb_eq a b : conv_eqb a b = true <-> a = b.
Proof.
  destruct a as [x|], b as [y|]; simpl; split; intro H;
    try discriminate; try reflexivity.
  - f_equal. lia.
  - injection H as ->. apply Z.eqb_refl.
Qed.

Lemma conv_eqb_neq a b : a <> b -> conv_eqb a b = false.
Proof.
  intro H. destruct (conv_eqb a b) eqn:E; [|reflexivity].
  apply conv_eqb_eq in E. contradiction.
Qed.


Lemma insert_newest_first_perm c l :
  Permutation (c :: l) (insert_newest_first c l).
Proof.
  induction l as [|y l IH]; simpl.
  - apply Permutation_refl.
  - destruct (Conversation.created_at y <=? Conversation.created_at c).
    + apply Permutation_refl.
    + eapply perm_trans; [apply perm_swap|apply perm_skip, IH].
Qed.

Lemma insert_newest_first_sorted c l :
  StronglySorted
    (fun x y => Conversation.created_at y <= Conversation.created_at x) l ->
  StronglySorted
    (fun x y => Conversation.created_at y <= Conversation.created_at x)
    (insert_newest_first c l).
Proof.
  induction 1 as [|y l Hs IH Hall]; simpl.
  - constructor; constructor.
  - destruct (Conversation.created_at y <=? Conversation.created_at c) eqn:E.
    + constructor; [constructor; assumption|].
      constructor; [lia|].
      eapply Forall_impl; [|exact Hall]. simpl. intros z Hz. lia.
    + constructor; [exact IH|].
      apply Forall_forall. intros z Hz.
      apply (Permutation_in _ (Permutation_sym (insert_newest_first_perm c l)))
        in Hz.
      destruct Hz as [<-|Hz]; [lia|].
      rewrite Forall_forall in Hall. apply Hall, Hz.
Qed.


(** X2. [get_conversations] lists every stored conversation, each as
    often as it is stored, newest first. *)
Theorem conversations_are_listed_newest_first :
  forall db,
    Permutation (conversations db) (get_conversations db) /\
    StronglySorted
      (fun x y => Conversation.created_at y <= Conversation.created_at x)
      (get_conversations db).
Proof.
  intro db. unfold get_conversations.
  induction (conversations db) as [|c l [IHp IHs]]; simpl.
  - split; constructor.
  - split.
    + eapply perm_trans; [apply perm_skip, IHp|].
      apply insert_newest_first_perm.
    + apply insert_newest_first_sorted, IHs.
Qed.

(* ================================================================== *)
(** * 16. More on the context *)
(* ================================================================== *)

Lemma len_nonneg s : 0 <= len s.
Proof. unfold len. lia. Qed.

Lemma total_chars_nonneg l : 0 <= total_chars l.
Proof.
  induction l as [|m l IH]; simpl; [lia|].
  fold (total_chars l). pose proof (len_nonneg (content m)). lia.
Qed.

Lemma total_chars_perm l l' :
  Permutation l l' -> total_chars l = total_chars l'.
Proof.
  induction 1 as [|x l l' _ IH|x y l|l l' l'' _ IH1 _ IH2]; simpl.
  - reflexivity.
  - fold (total_chars l) (total_chars l'). lia.
  - fold (total_chars l). lia.
  - lia.
Qed.

Lemma taken_all history :
  forall cur,
    cur + total_chars history <= CONTEXT_CHAR_LIMIT ->
    taken history cur = history.
Proof.
  induction history as [|msg older IH]; intros cur H; simpl; [reflexivity|].
  simpl in H. fold (total_chars older) in H.
  pose proof (total_chars_nonneg older).
  destruct (cur + len (content msg) >? CONTEXT_CHAR_LIMIT) eqn:E; [lia|].
  f_equal. apply IH. lia.
Qed.

(** X3. When the messages of a conversation have pairwise distinct
    timestamps and their lengths sum to at most the budget, the context
    is the whole conversation, oldest first. *)
Theorem short_conversation_is_sent_whole :
  forall tbl cid,
    NoDup (map created_at (filter (in_conversation cid) tbl)) ->
    total_chars (filter (in_conversation cid) tbl) <= CONTEXT_CHAR_LIMIT ->
    build_context tbl cid =
      map to_ollama (get_conversation_messages tbl cid).
Proof.
  intros tbl cid Hnd Hsum.
  rewrite build_context_taken, taken_all.
  - rewrite <- map_rev. f_equal.
    apply history_is_reversed_chronology, Hnd.
  - unfold select_history.
    rewrite <- (total_chars_perm _ _
                  (order_by_perm created_at_desc
                     (filter (in_conversation cid) tbl))).
    lia.
Qed.

Lemma short_conversation_is_sent_whole_witness :
  NoDup (map created_at
           (filter (in_conversation (Some 1)) Sample.chat_table)) /\
  total_chars (filter (in_conversation (Some 1)) Sample.chat_table)
    <= CONTEXT_CHAR_LIMIT /\
  build_context Sample.chat_table (Some 1) =
    [OllamaMessage.mk "user" "Hi"; OllamaMessage.mk "assistant" "Hello";
     OllamaMessage.mk "user" "More"; OllamaMessage.mk "assistant" "Sure"].
Proof.
  assert (H1 : NoDup (map created_at
                        (filter (in_conversation (Some 1))
                                Sample.chat_table)))
    by (simpl; repeat constructor; simpl; intuition discriminate).
  assert (H2 : total_chars
                 (filter (in_conversation (Some 1)) Sample.chat_table)
               <= CONTEXT_CHAR_LIMIT) by (vm_compute; discriminate).
  split; [exact H1|]. split; [exact H2|].
  etransitivity;
    [exact (short_conversation_is_sent_whole _ _ H1 H2)|reflexivity].
Defined.

(** X4. When the newest message of the history is no longer than the
    budget, it is in the context, as its last entry. *)
Theorem fitting_latest_message_is_sent_last :
  forall tbl cid latest older,
    select_history tbl cid = latest :: older ->
    len (content latest) <= CONTEXT_CHAR_LIMIT ->
    exists earlier,
      build_context tbl cid = earlier ++ [to_ollama latest].
Proof.
  intros tbl cid latest older Hh Hlen.
  rewrite build_context_taken, Hh. simpl.
  destruct (len (content latest) >? CONTEXT_CHAR_LIMIT) eqn:E; [lia|].
  simpl. eexists. reflexivity.
Qed.

Lemma fitting_latest_message_is_sent_last_witness :
  select_history Sample.long_table (Some 1)
    = [Sample.long2; Sample.long1] /\
  len (content Sample.long2) <= CONTEXT_CHAR_LIMIT /\
  exists earlier,
    build_context Sample.long_table (Some 1)
      = earlier ++ [to_ollama Sample.long2].
Proof.
  assert (H1 : select_history Sample.long_table (Some 1)
               = [Sample.long2; Sample.long1]) by (vm_compute; reflexivity).
  assert (H2 : len (content Sample.long2) <= CONTEXT_CHAR_LIMIT)
    by (vm_compute; discriminate).
  split; [exact H1|]. split; [exact H2|].
  exact (fitting_latest_message_is_sent_last _ _ _ _ H1 H2).
Defined.

(* ================================================================== *)
(** * 17. More on the relay loop *)
(* ================================================================== *)

Lemma relay_lines_app stamps cid l1 :
  forall l2 st,
    relay_lines stamps cid (l1 ++ l2) st =
    match relay_lines stamps cid l1 st with
    | (st1, Finished) => relay_lines stamps cid l2 st1
    | (st1, Raised e) => (st1, Raised e)
    end.
Proof.
  induction l1 as [|line l1 IH]; intros l2 st; simpl; [reflexivity|].
  destruct (on_line stamps cid st line) as [st' [|e]]; [apply IH|reflexivity].
Qed.

Lemma on_line_raise_keeps stamps cid st line st' e :
  on_line stamps cid st line = (st', Raised e) -> st' = st.
Proof.
  unfold on_line. destruct line as [| |chunk]; try discriminate.
  destruct (content_piece_of chunk) as [v|e0]; [|intros [= <- _]; reflexivity].
  destruct (add_piece st v) as [st1|e1]; [|intros [= <- _]; reflexivity].
  destruct (truthy (done_of chunk)); discriminate.
Qed.

Lemma on_line_grows stamps cid st line st' ex :
  on_line stamps cid st line = (st', ex) ->
  exists evs rows,
    yielded st' = yielded st ++ evs /\ table st' = table st ++ rows.
Proof.
  intro H.
  assert (Hsame : exists evs rows,
             yielded st = yielded st ++ evs /\ table st = table st ++ rows)
    by (exists [], []; rewrite !app_nil_r; auto).
  unfold on_line in H. destruct line as [| |chunk];
    try (injection H as <- _; exact Hsame).
  destruct (content_piece_of chunk) as [v|e0];
    [|injection H as <- _; exact Hsame].
  destruct (add_piece st v) as [st1|e1] eqn:A;
    [|injection H as <- _; exact Hsame].
  apply add_piece_cases in A.
  destruct (truthy (done_of chunk)); injection H as <- _;
    destruct A as [->|[s [_ [_ ->]]]]; simpl.
  - eexists [_], [_]. split; reflexivity.
  - eexists [_; _], [_]. rewrite <- app_assoc. split; reflexivity.
  - exact Hsame.
  - eexists [_], []. rewrite app_nil_r. split; reflexivity.
Qed.

Lemma relay_lines_grows stamps cid lines :
  forall st,
    exists evs rows,
      yielded (fst (relay_lines stamps cid lines st)) = yielded st ++ evs /\
      table (fst (relay_lines stamps cid lines st)) = table st ++ rows.
Proof.
  induction lines as [|line rest IH]; intro st; simpl.
  - exists [], []. rewrite !app_nil_r. auto.
  - destruct (on_line stamps cid st line) as [st1 ex] eqn:E.
    destruct (on_line_grows _ _ _ _ _ _ E) as [evs1 [rows1 [Hy1 Ht1]]].
    destruct ex; simpl.
    + destruct (IH st1) as [evs [rows [Hy Ht]]].
      exists (evs1 ++ evs), (rows1 ++ rows).
      rewrite Hy, Ht, Hy1, Ht1, !app_assoc. auto.
    + exists evs1, rows1. auto.
Qed.

Lemma on_line_text stamps cid st line st' :
  on_line stamps cid st line = (st', Finished) ->
  full_response_content st' =
    (full_response_content st ++ text_of line)%string.
Proof.
  unfold on_line, text_of. destruct line as [| |chunk];
    try (intros [= <-]; symmetry; apply append_nil_r).
  destruct (content_piece_of chunk) as [v|e0]; [|discriminate].
  destruct (add_piece st v) as [st1|e1] eqn:A; [|discriminate].
  intro H.
  assert (Hst' : full_response_content st' = full_response_content st1)
    by (destruct (truthy (done_of chunk)); injection H as <-; reflexivity).
  rewrite Hst'. clear H Hst'.
  unfold add_piece in A. destruct (truthy v) eqn:T.
  - destruct v; try discriminate. injection A as <-. reflexivity.
  - injection A as <-.
    destruct v; try (symmetry; apply append_nil_r).
    simpl in T. apply negb_false_iff, String.eqb_eq in T. subst s.
    symmetry. apply append_nil_r.
Qed.

Lemma relay_lines_text stamps cid lines :
  forall st st',
    relay_lines stamps cid lines st = (st', Finished) ->
    full_response_content st' =
      (full_response_content st ++ concat_texts lines)%string.
Proof.
  induction lines as [|line rest IH]; intros st st' H; simpl in *.
  - injection H as <-. symmetry. apply append_nil_r.
  - destruct (on_line stamps cid st line) as [st1 [|e]] eqn:E;
      [|discriminate].
    apply on_line_text in E. apply IH in H.
    rewrite H, E. apply append_assoc.
Qed.

Lemma relay_lines_without_noise stamps cid lines :
  forall st,
    relay_lines stamps cid
      (filter (fun line => negb (is_noise line)) lines) st =
    relay_lines stamps cid lines st.
Proof.
  induction lines as [|line rest IH]; intro st; [reflexivity|].
  destruct line as [| |chunk]; [apply IH|apply IH|].
  cbn [filter is_noise negb relay_lines].
  destruct (on_line stamps cid st (Parsed chunk)) as [st1 [|e]];
    [apply IH|reflexivity].
Qed.

(** X5. Empty lines and lines that are not JSON change nothing: a body
    gives the same events, the same table and the same end as the body
    without them. *)
Theorem blank_and_unparsable_lines_change_nothing :
  forall ollama stamps tbl request cid,
    stream_ollama_response (without_noise ollama) stamps tbl request cid =
    stream_ollama_response ollama stamps tbl request cid.
Proof.
  intros ollama stamps tbl request cid.
  unfold stream_ollama_response, without_noise. simpl.
  destruct (negb (Response.status_code _ =? 200)); [reflexivity|].
  rewrite relay_lines_without_noise. reflexivity.
Qed.

(** X6. A line on which the loop raises ends the relay there: the
    generator is left as it was before that line, nothing is sent or
    stored for it, and the lines after it are not read. *)
Theorem raising_line_ends_the_relay :
  forall stamps cid before line after st st1 e,
    relay_lines stamps cid before st = (st1, Finished) ->
    snd (on_line stamps cid st1 line) = Raised e ->
    relay_lines stamps cid (before ++ line :: after) st = (st1, Raised e).
Proof.
  intros stamps cid before line after st st1 e Hbefore Hline.
  rewrite relay_lines_app, Hbefore. simpl.
  destruct (on_line stamps cid st1 line) as [st2 ex] eqn:E.
  simpl in Hline. subst ex.
  rewrite (on_line_raise_keeps _ _ _ _ _ _ E). reflexivity.
Qed.

Lemma raising_line_ends_the_relay_witness :
  let st := mkRelay EmptyString Sample.chat_table [] 0 in
  let st1 := mkRelay "Hel" Sample.chat_table [EvContent "Hel"] 0 in
  relay_lines Sample.stamps (Some 1) [Sample.piece "Hel" false] st
    = (st1, Finished) /\
  snd (on_line Sample.stamps (Some 1) st1 (Parsed (JNum 7)))
    = Raised AttributeError /\
  relay_lines Sample.stamps (Some 1) Demo.broken_body st
    = (st1, Raised AttributeError).
Proof.
  intros st st1.
  assert (H1 : relay_lines Sample.stamps (Some 1)
                 [Sample.piece "Hel" false] st = (st1, Finished))
    by reflexivity.
  assert (H2 : snd (on_line Sample.stamps (Some 1) st1 (Parsed (JNum 7)))
               = Raised AttributeError) by reflexivity.
  split; [exact H1|]. split; [exact H2|].
  exact (raising_line_ends_the_relay Sample.stamps (Some 1)
           [Sample.piece "Hel" false] (Parsed (JNum 7))
           [Sample.piece "lo" true] st st1 AttributeError H1 H2).
Defined.

(** X7. When the status is 200 and the relay ends without an
    exception, the fragments it sent, concatenated, are the content
    strings of all lines of the body, concatenated in order: nothing is
    dropped, repeated or reordered. *)
Theorem finished_relay_forwards_every_fragment :
  forall ollama stamps tbl request cid,
    let response := ollama (payload_for tbl request cid) in
    let out := stream_ollama_response ollama stamps tbl request cid in
    Response.status_code response = 200 ->
    exit out = Finished ->
    fragments (events out) = concat_texts (Response.aiter_lines response).
Proof.
  intros ollama stamps tbl request cid response out Hs Hex.
  destruct (stream_on_ok_status ollama stamps tbl request cid Hs)
    as [st [Hrun [Hev _]]].
  fold out in Hrun, Hev. rewrite Hex in Hrun.
  pose proof (relay_lines_inv stamps cid tbl _ _ _ _
                (relay_inv_start stamps cid tbl) Hrun) as (Hacc & _).
  apply relay_lines_text in Hrun. simpl in Hrun.
  rewrite Hev, <- Hacc. exact Hrun.
Qed.

Lemma finished_relay_forwards_every_fragment_witness :
  let out := stream_ollama_response Demo.good Sample.stamps
               Sample.chat_table Sample.request (Some 1) in
  Response.status_code (Demo.good (payload_for Sample.chat_table
                                     Sample.request (Some 1))) = 200 /\
  exit out = Finished /\
  fragments (events out) = "Hello"%string.
Proof.
  intro out.
  assert (H1 : Response.status_code
                 (Demo.good (payload_for Sample.chat_table
                               Sample.request (Some 1))) = 200)
    by reflexivity.
  assert (H2 : exit out = Finished) by reflexivity.
  split; [exact H1|]. split; [exact H2|].
  etransitivity;
    [exact (finished_relay_forwards_every_fragment Demo.good Sample.stamps
              Sample.chat_table Sample.request (Some 1) H1 H2)
    |reflexivity].
Defined.

(** X8. After a status 200 the relay sends content-delta and done
    events only: when the loop raises, the stream just stops, and no
    error event reports it. *)
Theorem no_error_event_after_status_200 :
  forall ollama stamps tbl request cid,
    Response.status_code (ollama (payload_for tbl request cid)) = 200 ->
    Forall is_delta_or_done
      (events (stream_ollama_response ollama stamps tbl request cid)).
Proof.
  intros ollama stamps tbl request cid Hs.
  destruct (stream_on_ok_status ollama stamps tbl request cid Hs)
    as [st [Hrun [Hev _]]].
  pose proof (relay_lines_inv stamps cid tbl _ _ _ _
                (relay_inv_start stamps cid tbl) Hrun)
    as (_ & _ & _ & _ & Hevs).
  rewrite Hev. apply Forall_forall. intros ev Hin.
  specialize (Hevs ev Hin). destruct ev; simpl; auto.
Qed.

Lemma no_error_event_after_status_200_witness :
  let backend := Sample.replies (Response.mk 200 (Text "") Demo.broken_body) in
  let out := stream_ollama_response backend Sample.stamps
               Sample.chat_table Sample.request (Some 1) in
  Response.status_code
    (backend (payload_for Sample.chat_table Sample.request (Some 1)))
    = 200 /\
  exit out = Raised AttributeError /\
  events out = [EvContent "Hel"] /\
  Forall is_delta_or_done (events out).
Proof.
  intros backend out.
  assert (H1 : Response.status_code
                 (backend (payload_for Sample.chat_table Sample.request
                             (Some 1))) = 200) by reflexivity.
  split; [exact H1|]. split; [reflexivity|]. split; [reflexivity|].
  exact (no_error_event_after_status_200 backend Sample.stamps
           Sample.chat_table Sample.request (Some 1) H1).
Defined.

(** X9. When no line of the body carries the completion flag, the
    relay stores nothing and sends no done event, whatever fragments it
    has sent. *)
Theorem unflagged_body_stores_nothing :
  forall ollama stamps tbl request cid,
    done_lines
      (Response.aiter_lines (ollama (payload_for tbl request cid))) = 0%nat ->
    store (stream_ollama_response ollama stamps tbl request cid) = tbl /\
    done_messages
      (events (stream_ollama_response ollama stamps tbl request cid)) = [].
Proof.
  intros ollama stamps tbl request cid H0.
  destruct (stream_inv ollama stamps tbl request cid) as (Hst & _).
  destruct (stream_commit_count ollama stamps tbl request cid) as [Hle _].
  rewrite H0 in Hle.
  destruct (done_messages _) as [|m l]; [|simpl in Hle; lia].
  rewrite Hst, app_nil_r. auto.
Qed.

Lemma unflagged_body_stores_nothing_witness :
  let backend := Sample.replies (Response.mk 200 (Text "") Demo.cut_body) in
  let out := stream_ollama_response backend Sample.stamps
               Sample.chat_table Sample.request (Some 1) in
  done_lines Demo.cut_body = 0%nat /\
  events out = [EvContent "Hel"; EvContent "lo"] /\
  store out = Sample.chat_table.
Proof.
  intros backend out.
  assert (H0 : done_lines Demo.cut_body = 0%nat) by reflexivity.
  split; [exact H0|]. split; [reflexivity|].
  exact (proj1 (unflagged_body_stores_nothing backend Sample.stamps
                  Sample.chat_table Sample.request (Some 1) H0)).
Defined.

(** X10. What the loop has sent and stored after a part of the body is
    the beginning of what it has sent and stored after the whole body:
    reading on only appends events and rows. *)
Theorem relay_output_only_grows :
  forall stamps cid l1 l2 st,
    exists evs rows,
      yielded (fst (relay_lines stamps cid (l1 ++ l2) st)) =
        yielded (fst (relay_lines stamps cid l1 st)) ++ evs /\
      table (fst (relay_lines stamps cid (l1 ++ l2) st)) =
        table (fst (relay_lines stamps cid l1 st)) ++ rows.
Proof.
  intros stamps cid l1 l2 st. rewrite relay_lines_app.
  destruct (relay_lines stamps cid l1 st) as [st1 [|e]]; simpl.
  - apply relay_lines_grows.
  - exists [], []. rewrite !app_nil_r. auto.
Qed.

(* ================================================================== *)
(** * 18. A reply that arrives *)
(* ================================================================== *)

(** The run of the relay on a body with one flagged line that ends
    without an exception. *)
Lemma relay_single_reply ollama stamps tbl request cid :
  Response.status_code (ollama (payload_for tbl request cid)) = 200 ->
  exit (stream_ollama_response ollama stamps tbl request cid) = Finished ->
  done_lines (Response.aiter_lines (ollama (payload_for tbl request cid)))
    = 1%nat ->
  exists pre post,
    events (stream_ollama_response ollama stamps tbl request cid) =
      pre ++ EvDone (assistant_row stamps cid 0 (fragments pre)) :: post /\
    store (stream_ollama_response ollama stamps tbl request cid) =
      tbl ++ [assistant_row stamps cid 0 (fragments pre)].
Proof.
  intros Hs Hex H1.
  destruct (stream_inv ollama stamps tbl request cid) as (Hst & Hdone & _).
  destruct (stream_commit_count ollama stamps tbl request cid) as [_ Heq].
  specialize (Heq Hs Hex). rewrite H1 in Heq.
  destruct (done_messages _) as [|m [|m' l]] eqn:D; try discriminate.
  assert (Hin : In m (done_messages
                        (events (stream_ollama_response ollama stamps tbl
                                   request cid))))
    by (rewrite D; left; reflexivity).
  apply done_messages_split in Hin. destruct Hin as [pre [post Hsplit]].
  pose proof (Hdone _ _ _ Hsplit) as Hm.
  assert (Hpre : done_messages pre = []).
  { rewrite Hsplit, done_messages_app in D. simpl in D.
    destruct (done_messages pre) as [|x xs]; [reflexivity|].
    simpl in D. injection D as _ D. destruct xs; discriminate. }
  rewrite Hpre in Hm. simpl in Hm. subst m.
  exists pre, post. split; [exact Hsplit|]. rewrite Hst. reflexivity.
Qed.

(** A row of the conversation that is appended to the table and is at
    least as new as the conversation's rows is listed last. *)
Lemma listing_snoc tbl cid n :
  conversation_id n = cid ->
  Forall (fun m => in_conversation cid m = true ->
                   created_at m <= created_at n) tbl ->
  get_conversation_messages (tbl ++ [n]) cid =
    get_conversation_messages tbl cid ++ [n].
Proof.
  intros Hn Hall. unfold get_conversation_messages.
  rewrite filter_app. simpl. unfold in_conversation at 2.
  rewrite Hn, conv_eqb_refl.
  apply order_by_snoc. apply Forall_forall. intros x Hx.
  apply filter_In in Hx. destruct Hx as [Hx Hc].
  rewrite Forall_forall in Hall. specialize (Hall x Hx Hc).
  unfold created_at_asc. lia.
Qed.

(** A row of the conversation that is appended to the table and is
    newer than the conversation's rows heads the history. *)
Lemma history_snoc tbl cid n :
  conversation_id n = cid ->
  Forall (fun m => in_conversation cid m = true ->
                   created_at m < created_at n) tbl ->
  select_history (tbl ++ [n]) cid = n :: select_history tbl cid.
Proof.
  intros Hn Hall. unfold select_history.
  rewrite filter_app. simpl. unfold in_conversation at 2.
  rewrite Hn, conv_eqb_refl.
  assert (Hl : Forall (fun m => created_at m < created_at n)
                      (filter (in_conversation cid) tbl)).
  { apply Forall_forall. intros x Hx. apply filter_In in Hx.
    rewrite Forall_forall in Hall. apply Hall; apply Hx. }
  induction Hl as [|x l Hx Hl IH]; simpl; [reflexivity|].
  rewrite IH. simpl. unfold created_at_desc at 1.
  destruct (created_at n <=? created_at x) eqn:E; [lia|reflexivity].
Qed.

(** X11. When the status is 200, one line of the body carries the
    flag, the relay ends without an exception, and the clock read for
    the reply is not earlier than the conversation's messages: the
    table gains one row, the assistant message with the fragments sent
    before the done event, and the conversation lists it last. *)
Theorem finished_reply_is_listed_last :
  forall ollama stamps tbl request cid,
    let response := ollama (payload_for tbl request cid) in
    let out := stream_ollama_response ollama stamps tbl request cid in
    Response.status_code response = 200 ->
    exit out = Finished ->
    done_lines (Response.aiter_lines response) = 1%nat ->
    Forall (fun m => in_conversation cid m = true ->
                     created_at m <= utcnow (stamps 0%nat)) tbl ->
    exists pre post,
      let reply := assistant_row stamps cid 0 (fragments pre) in
      events out = pre ++ EvDone reply :: post /\
      store out = tbl ++ [reply] /\
      get_conversation_messages (store out) cid =
        get_conversation_messages tbl cid ++ [reply].
Proof.
  intros ollama stamps tbl request cid response out Hs Hex H1 Hclock.
  destruct (relay_single_reply ollama stamps tbl request cid Hs Hex H1)
    as [pre [post [Hev Hst]]].
  exists pre, post. simpl. split; [exact Hev|]. split; [exact Hst|].
  unfold out. rewrite Hst. apply listing_snoc; [reflexivity|exact Hclock].
Qed.

Lemma finished_reply_is_listed_last_witness :
  let out := stream_ollama_response Demo.good Sample.stamps
               Sample.chat_table Sample.request (Some 1) in
  let reply := mkChatMessage 6 "assistant" "Hello" 1000 (Some 1) in
  exit out = Finished /\
  done_lines Sample.good_body = 1%nat /\
  Forall (fun m => in_conversation (Some 1) m = true ->
                   created_at m <= utcnow (Sample.stamps 0%nat))
         Sample.chat_table /\
  exists pre post,
    events out
      = pre ++ EvDone (assistant_row Sample.stamps (Some 1) 0
                                     (fragments pre)) :: post /\
    get_conversation_messages (store out) (Some 1) =
      get_conversation_messages Sample.chat_table (Some 1)
        ++ [assistant_row Sample.stamps (Some 1) 0 (fragments pre)].
Proof.
  intros out reply.
  assert (H2 : exit out = Finished) by reflexivity.
  assert (H3 : done_lines Sample.good_body = 1%nat) by reflexivity.
  assert (H4 : Forall (fun m => in_conversation (Some 1) m = true ->
                                created_at m <= utcnow (Sample.stamps 0%nat))
                      Sample.chat_table)
    by (repeat constructor; simpl; intros _; lia).
  split; [exact H2|]. split; [exact H3|]. split; [exact H4|].
  destruct (finished_reply_is_listed_last Demo.good Sample.stamps
              Sample.chat_table Sample.request (Some 1) eq_refl H2 H3 H4)
    as [pre [post (Hev & _ & Hl)]].
  exists pre, post. split; [exact Hev|exact Hl].
Defined.

(* ================================================================== *)
(** * 19. The chat endpoint *)
(* ================================================================== *)

Lemma conversation_get_Some cs pk c :
  conversation_get cs pk = Found c -> In c cs /\ Conversation.id c = pk.
Proof.
  unfold conversation_get. destruct (fits_int64 pk); [|discriminate].
  destruct (find _ cs) as [c'|] eqn:F; [|discriminate].
  intros [= <-]. apply find_some in F.
  destruct F as [Hin Hid]. split; [exact Hin|lia].
Qed.

Lemma conversation_get_fits cs pk c :
  conversation_get cs pk = Found c -> fits_int64 pk = true.
Proof.
  unfold conversation_get. destruct (fits_int64 pk); [reflexivity|].
  discriminate.
Qed.

Lemma chat_conversation_existing db cstamp request pk conversation :
  ChatRequest.conversation_id request = Some pk ->
  conversation_get (conversations db) pk = Found conversation ->
  chat_conversation db cstamp request = Returns (conversations db, conversation)
  /\ Conversation.id conversation = pk.
Proof.
  intros Hreq Hget. unfold chat_conversation. rewrite Hreq, Hget.
  split; [reflexivity|]. apply (conversation_get_Some _ _ _ Hget).
Qed.

Lemma chat_stream_found ollama cstamp mstamp stamps db request convs c :
  chat_conversation db cstamp request = Returns (convs, c) ->
  chat_stream ollama cstamp mstamp stamps db request =
  (mkDb convs
     (store (stream_ollama_response ollama stamps
               (messages db
                  ++ [mkChatMessage (assigned_id mstamp) "user"
                        (ChatRequest.prompt request) (utcnow mstamp)
                        (Some (Conversation.id c))])
               request (Some (Conversation.id c)))),
   Returns
     (EvInitial
        (mkChatMessage (assigned_id mstamp) "user"
           (ChatRequest.prompt request) (utcnow mstamp)
           (Some (Conversation.id c)))
        (Some (Conversation.id c))
      :: events (stream_ollama_response ollama stamps
                   (messages db
                      ++ [mkChatMessage (assigned_id mstamp) "user"
                            (ChatRequest.prompt request) (utcnow mstamp)
                            (Some (Conversation.id c))])
                   request (Some (Conversation.id c))),
      exit (stream_ollama_response ollama stamps
              (messages db
                 ++ [mkChatMessage (assigned_id mstamp) "user"
                       (ChatRequest.prompt request) (utcnow mstamp)
                       (Some (Conversation.id c))])
              request (Some (Conversation.id c))))).
Proof.
  intro H. unfold chat_stream. rewrite H. reflexivity.
Qed.



Lemma substring_prefix (n : nat) :
  forall s,
    exists tail,
      s = (substring 0 n s ++ tail)%string /\
      String.length (substring 0 n s) = Nat.min n (String.length s).
Proof.
  induction n as [|n IH]; intros [|c s]; simpl.
  - exists EmptyString. auto.
  - exists (String c s). auto.
  - exists EmptyString. auto.
  - destruct (IH s) as [tail [Hs Hl]]. exists tail.
    split; [f_equal; exact Hs|f_equal; exact Hl].
Qed.

(** X13. A chat request that names no conversation is never answered
    404 and adds one conversation as the last row of its table; the
    title of that conversation is the beginning of the prompt, of
    length 50 or of the length of the prompt if that is less. *)
Theorem new_conversation_is_titled_by_prompt_start :
  forall ollama cstamp mstamp stamps db request,
    ChatRequest.conversation_id request = None ->
    exists conversation tail msgs stream,
      chat_stream ollama cstamp mstamp stamps db request =
        (mkDb (conversations db ++ [conversation]) msgs, Returns stream) /\
      Conversation.id conversation = assigned_id cstamp /\
      Conversation.created_at conversation = utcnow cstamp /\
      ChatRequest.prompt request =
        (Conversation.title conversation ++ tail)%string /\
      String.length (Conversation.title conversation) =
        Nat.min 50 (String.length (ChatRequest.prompt request)).
Proof.
  intros ollama cstamp mstamp stamps db request Hnone.
  destruct (substring_prefix 50 (ChatRequest.prompt request))
    as [tail [Hs Hl]].
  assert (C : chat_conversation db cstamp request =
              Returns (conversations db
                      ++ [Conversation.mk (assigned_id cstamp)
                            (first_50 (ChatRequest.prompt request))
                            (utcnow cstamp)],
                    Conversation.mk (assigned_id cstamp)
                      (first_50 (ChatRequest.prompt request))
                      (utcnow cstamp)))
    by (unfold chat_conversation; rewrite Hnone; reflexivity).
  eexists _, tail, _, _. split.
  - rewrite (chat_stream_found ollama cstamp mstamp stamps _ _ _ _ C).
    reflexivity.
  - simpl. repeat split; assumption.
Qed.

Lemma new_conversation_is_titled_by_prompt_start_witness :
  ChatRequest.conversation_id Demo.open_new = None /\
  exists conversation tail msgs stream,
    chat_stream Demo.good Demo.conv_stamp Demo.msg_stamp Demo.relay_stamps
      Demo.db Demo.open_new =
      (mkDb ([Demo.c1; Demo.c2] ++ [conversation]) msgs, Returns stream) /\
    Sample.filler 60 = (Conversation.title conversation ++ tail)%string /\
    String.length (Conversation.title conversation) = 50%nat.
Proof.
  split; [reflexivity|].
  destruct (new_conversation_is_titled_by_prompt_start
              Demo.good Demo.conv_stamp Demo.msg_stamp Demo.relay_stamps
              Demo.db Demo.open_new eq_refl)
    as [conversation [tail [msgs [stream (H & _ & _ & Hp & Hl)]]]].
  exists conversation, tail, msgs, stream.
  split; [exact H|]. split; [exact Hp|].
  etransitivity; [exact Hl|reflexivity].
Defined.

(** X14. A chat in a stored conversation whose messages are all older
    than the new user message posts a payload built from the table that
    already holds that message: the prompt is the last message of the
    payload when it is no longer than the budget, and the payload has
    no messages at all when the prompt is longer than the budget. *)
Theorem chat_payload_ends_with_the_prompt :
  forall ollama cstamp mstamp stamps db request pk conversation,
    ChatRequest.conversation_id request = Some pk ->
    conversation_get (conversations db) pk = Found conversation ->
    Forall (fun m => in_conversation (Some pk) m = true ->
                     created_at m < utcnow mstamp) (messages db) ->
    let user_message :=
      mkChatMessage (assigned_id mstamp) "user"
        (ChatRequest.prompt request) (utcnow mstamp) (Some pk) in
    let msgs := messages db ++ [user_message] in
    let out := stream_ollama_response ollama stamps msgs request (Some pk) in
    chat_stream ollama cstamp mstamp stamps db request =
      (mkDb (conversations db) (store out),
       Returns (EvInitial user_message (Some pk) :: events out, exit out)) /\
    (len (ChatRequest.prompt request) <= CONTEXT_CHAR_LIMIT ->
     exists earlier,
       ChatPayload.messages (payload_for msgs request (Some pk)) =
         earlier ++ [OllamaMessage.mk "user" (ChatRequest.prompt request)]) /\
    (len (ChatRequest.prompt request) > CONTEXT_CHAR_LIMIT ->
     ChatPayload.messages (payload_for msgs request (Some pk)) = []).
Proof.
  intros ollama cstamp mstamp stamps db request pk conversation
         Hreq Hget Hnew user_message msgs out.
  destruct (chat_conversation_existing db cstamp request pk conversation
              Hreq Hget) as [C Hid].
  assert (Hh : select_history msgs (Some pk) =
               user_message :: select_history (messages db) (Some pk))
    by (apply history_snoc; [reflexivity|exact Hnew]).
  split.
  - rewrite (chat_stream_found ollama cstamp mstamp stamps _ _ _ _ C), Hid.
    reflexivity.
  - simpl. rewrite build_context_taken, Hh. simpl.
    destruct (len (ChatRequest.prompt request) >? CONTEXT_CHAR_LIMIT) eqn:E.
    + split; [lia|reflexivity].
    + split; [|lia]. intros _. simpl. eexists. reflexivity.
Qed.

Lemma chat_payload_ends_with_the_prompt_witness :
  let user_message :=
    mkChatMessage 6 "user" (Sample.filler 9000) 500 (Some 1) in
  ChatRequest.conversation_id Demo.long_ask = Some 1 /\
  conversation_get (conversations Demo.db) 1 = Found Demo.c1 /\
  Forall (fun m => in_conversation (Some 1) m = true ->
                   created_at m < utcnow Demo.msg_stamp)
         (messages Demo.db) /\
  len (ChatRequest.prompt Demo.long_ask) > CONTEXT_CHAR_LIMIT /\
  ChatPayload.messages
    (payload_for (messages Demo.db ++ [user_message]) Demo.long_ask
                 (Some 1)) = [].
Proof.
  intro user_message.
  assert (H1 : ChatRequest.conversation_id Demo.long_ask = Some 1)
    by reflexivity.
  assert (H2 : conversation_get (conversations Demo.db) 1 = Found Demo.c1)
    by reflexivity.
  assert (H3 : Forall (fun m => in_conversation (Some 1) m = true ->
                                created_at m < utcnow Demo.msg_stamp)
                      (messages Demo.db)).
  { repeat constructor; simpl; intro H; try lia; discriminate H. }
  assert (H4 : len (ChatRequest.prompt Demo.long_ask) > CONTEXT_CHAR_LIMIT)
    by (vm_compute; reflexivity).
  split; [exact H1|]. split; [exact H2|]. split; [exact H3|].
  split; [exact H4|].
  exact (proj2 (proj2 (chat_payload_ends_with_the_prompt
                         Demo.good Demo.conv_stamp Demo.msg_stamp
                         Demo.relay_stamps Demo.db Demo.long_ask 1 Demo.c1
                         H1 H2 H3)) H4).
Defined.

(** X15. A chat in a stored conversation, when the backend answers 200
    with one flagged line, the stream ends without an exception and the
    clock does not run backwards: the conversation lists what it listed
    before, then the user message, then the assistant message, whose
    content is the fragments sent between the initial event and the
    done event; the conversation table is as it was. *)
Theorem finished_chat_appends_both_messages :
  forall ollama cstamp mstamp stamps db request pk conversation db' evs,
    ChatRequest.conversation_id request = Some pk ->
    conversation_get (conversations db) pk = Found conversation ->
    Forall (fun m => in_conversation (Some pk) m = true ->
                     created_at m <= utcnow mstamp) (messages db) ->
    utcnow mstamp <= utcnow (stamps 0%nat) ->
    let user_message :=
      mkChatMessage (assigned_id mstamp) "user"
        (ChatRequest.prompt request) (utcnow mstamp) (Some pk) in
    let response :=
      ollama (payload_for (messages db ++ [user_message]) request
                          (Some pk)) in
    Response.status_code response = 200 ->
    done_lines (Response.aiter_lines response) = 1%nat ->
    chat_stream ollama cstamp mstamp stamps db request
      = (db', Returns (evs, Finished)) ->
    exists pre post,
      let reply := assistant_row stamps (Some pk) 0 (fragments pre) in
      evs = EvInitial user_message (Some pk) :: pre ++ EvDone reply :: post /\
      conversations db' = conversations db /\
      messages db' = messages db ++ [user_message; reply] /\
      get_conversation_messages (messages db') (Some pk) =
        get_conversation_messages (messages db) (Some pk)
          ++ [user_message; reply].
Proof.
  intros ollama cstamp mstamp stamps db request pk conversation db' evs
         Hreq Hget Hold Hclock user_message response Hs H1 Hrun.
  destruct (chat_conversation_existing db cstamp request pk conversation
              Hreq Hget) as [C Hid].
  rewrite (chat_stream_found ollama cstamp mstamp stamps _ _ _ _ C), Hid
    in Hrun.
  fold user_message in Hrun. injection Hrun as <- <- Hex.
  destruct (relay_single_reply ollama stamps
              (messages db ++ [user_message]) request (Some pk) Hs Hex H1)
    as [pre [post [Hev Hst]]].
  exists pre, post. simpl. rewrite Hev, Hst.
  split; [reflexivity|]. split; [reflexivity|].
  split; [rewrite <- app_assoc; reflexivity|].
  rewrite listing_snoc.
  - rewrite listing_snoc; [|reflexivity|exact Hold].
    rewrite <- app_assoc. reflexivity.
  - reflexivity.
  - apply Forall_app. split.
    + eapply Forall_impl; [|exact Hold]. simpl. intros m Hm Hc.
      specialize (Hm Hc). lia.
    + constructor; [|constructor]. intros _. simpl. exact Hclock.
Qed.

Lemma finished_chat_appends_both_messages_witness :
  let user_message := mkChatMessage 6 "user" "And then?" 500 (Some 1) in
  let db' := mkDb [Demo.c1; Demo.c2]
                  (Sample.chat_table
                     ++ [user_message;
                         mkChatMessage 7 "assistant" "Hello" 600 (Some 1)]) in
  let evs := [EvInitial user_message (Some 1); EvContent "Hel";
              EvContent "lo";
              EvDone (mkChatMessage 7 "assistant" "Hello" 600 (Some 1))] in
  chat_stream Demo.good Demo.conv_stamp Demo.msg_stamp Demo.relay_stamps
    Demo.db Demo.ask = (db', Returns (evs, Finished)) /\
  exists pre post,
    evs = EvInitial user_message (Some 1)
            :: pre ++ EvDone (assistant_row Demo.relay_stamps (Some 1) 0
                                            (fragments pre)) :: post /\
    get_conversation_messages (messages db') (Some 1) =
      [Sample.m1; Sample.m2; Sample.m3; Sample.m4]
        ++ [user_message;
            assistant_row Demo.relay_stamps (Some 1) 0 (fragments pre)].
Proof.
  intros user_message db' evs.
  assert (H : chat_stream Demo.good Demo.conv_stamp Demo.msg_stamp
                Demo.relay_stamps Demo.db Demo.ask
              = (db', Returns (evs, Finished))) by reflexivity.
  split; [exact H|].
  assert (Hold : Forall (fun m => in_conversation (Some 1) m = true ->
                                  created_at m <= utcnow Demo.msg_stamp)
                        (messages Demo.db)).
  { repeat constructor; simpl; intro Hc; try lia; discriminate Hc. }
  assert (Hclock : utcnow Demo.msg_stamp <= utcnow (Demo.relay_stamps 0%nat))
    by (simpl; lia).
  destruct (finished_chat_appends_both_messages
              Demo.good Demo.conv_stamp Demo.msg_stamp Demo.relay_stamps
              Demo.db Demo.ask 1 Demo.c1 db' evs
              eq_refl eq_refl Hold Hclock eq_refl eq_refl H)
    as [pre [post (He & _ & _ & Hl)]].
  exists pre, post. split; [exact He|exact Hl].
Defined.

(* ================================================================== *)
(** * 20. Deleting and renaming a conversation *)
(* ================================================================== *)

Lemma filter_none (A : Type) (p : A -> bool) l :
  (forall x, In x l -> p x = false) -> filter p l = [].
Proof.
  intro H. rewrite (filter_ext_in p (fun _ => false)); [apply filter_false|].
  exact H.
Qed.

Lemma other_conversation_survives pk cid m :
  cid <> Some pk ->
  negb (in_conversation (Some pk) m) && in_conversation cid m
    = in_conversation cid m.
Proof.
  intro Hneq. unfold in_conversation.
  destruct (conv_eqb (conversation_id m) cid) eqn:E;
    [|apply andb_false_r].
  apply conv_eqb_eq in E. rewrite E, (conv_eqb_neq _ _ Hneq). reflexivity.
Qed.

(** X16. Deleting a stored conversation answers 204, removes the
    conversation's row and exactly the messages of that conversation;
    every other conversation lists the messages it listed before. *)
Theorem delete_conversation_cascades :
  forall db pk conversation,
    NoDup (map id (messages db)) ->
    conversation_get (conversations db) pk = Found conversation ->
    exists db',
      delete_conversation db pk = (db', Returns 204) /\
      conversations db' =
        filter (fun c => negb (Conversation.id c =? pk)) (conversations db) /\
      messages db' =
        filter (fun m => negb (in_conversation (Some pk) m)) (messages db) /\
      (forall cid, cid <> Some pk ->
         get_conversation_messages (messages db') cid =
         get_conversation_messages (messages db) cid).
Proof.
  intros db pk conversation Hnd Hget.
  destruct (conversation_get_Some _ _ _ Hget) as [_ Hid].
  unfold delete_conversation. rewrite Hget, Hid.
  rewrite delete_selected by exact Hnd.
  eexists. split; [reflexivity|]. simpl.
  split; [reflexivity|]. split; [reflexivity|].
  intros cid Hneq. unfold get_conversation_messages. f_equal.
  rewrite filter_filter. apply filter_ext. intro m.
  apply other_conversation_survives, Hneq.
Qed.

Lemma delete_conversation_cascades_witness :
  NoDup (map id (messages Demo.db)) /\
  conversation_get (conversations Demo.db) 1 = Found Demo.c1 /\
  exists db',
    delete_conversation Demo.db 1 = (db', Returns 204) /\
    conversations db' = [Demo.c2] /\
    messages db' = [Sample.other].
Proof.
  assert (H1 : NoDup (map id (messages Demo.db)))
    by (simpl; repeat constructor; simpl; intuition discriminate).
  assert (H2 : conversation_get (conversations Demo.db) 1 = Found Demo.c1)
    by reflexivity.
  split; [exact H1|]. split; [exact H2|].
  destruct (delete_conversation_cascades Demo.db 1 Demo.c1 H1 H2)
    as [db' (Hd & Hc & Hm & _)].
  exists db'. split; [exact Hd|].
  split; [rewrite Hc|rewrite Hm]; reflexivity.
Defined.

Lemma conversation_get_filtered cs pk :
  fits_int64 pk = true ->
  conversation_get (filter (fun c => negb (Conversation.id c =? pk)) cs) pk
    = Absent.
Proof.
  unfold conversation_get. intros ->.
  induction cs as [|c cs IH]; simpl; [reflexivity|].
  destruct (Conversation.id c =? pk) eqn:E; simpl; [exact IH|].
  rewrite E. exact IH.
Qed.

(** X17. After a stored conversation was deleted, its key finds
    nothing: the conversation has no messages to list, and deleting it
    again, renaming it or chatting in it is answered 404 and changes
    nothing. *)
Theorem deleted_conversation_is_gone :
  forall db pk conversation,
    conversation_get (conversations db) pk = Found conversation ->
    exists db',
      delete_conversation db pk = (db', Returns 204) /\
      conversation_get (conversations db') pk = Absent /\
      get_conversation_messages (messages db') (Some pk) = [] /\
      delete_conversation db' pk = (db', Raise404 "Conversation not found") /\
      (forall request,
         update_conversation_title db' pk request
           = (db', Raise404 "Conversation not found")) /\
      (forall ollama cstamp mstamp stamps request,
         ChatRequest.conversation_id request = Some pk ->
         chat_stream ollama cstamp mstamp stamps db' request
           = (db', Raise404 "Conversation not found")).
Proof.
  intros db pk conversation Hget.
  destruct (conversation_get_Some _ _ _ Hget) as [_ Hid].
  unfold delete_conversation at 1. rewrite Hget, Hid.
  eexists. split; [reflexivity|].
  assert (Hnone : conversation_get
                    (filter (fun c => negb (Conversation.id c =? pk))
                            (conversations db)) pk = Absent)
    by apply conversation_get_filtered, (conversation_get_fits _ _ _ Hget).
  split; [exact Hnone|]. split.
  - simpl. unfold get_conversation_messages.
    rewrite filter_none; [reflexivity|].
    intros m Hm. destruct (in_conversation (Some pk) m) eqn:C;
      [|reflexivity].
    exfalso.
    assert (Hin : In m (messages db)).
    { rewrite fold_session_delete in Hm. apply filter_In in Hm. apply Hm. }
    apply (deleted_key_is_gone (in_conversation (Some pk)) _ m Hin C).
    apply in_map, Hm.
  - split; [|split].
    + unfold delete_conversation. simpl. rewrite Hnone. reflexivity.
    + intro request. unfold update_conversation_title. simpl.
      rewrite Hnone. reflexivity.
    + intros ollama cstamp mstamp stamps request Hreq.
      unfold chat_stream, chat_conversation. rewrite Hreq. simpl.
      rewrite Hnone. reflexivity.
Qed.

Lemma deleted_conversation_is_gone_witness :
  conversation_get (conversations Demo.db) 1 = Found Demo.c1 /\
  exists db',
    delete_conversation Demo.db 1 = (db', Returns 204) /\
    delete_conversation db' 1 = (db', Raise404 "Conversation not found") /\
    chat_stream Demo.good Demo.conv_stamp Demo.msg_stamp Demo.relay_stamps
      db' Demo.ask = (db', Raise404 "Conversation not found").
Proof.
  assert (H : conversation_get (conversations Demo.db) 1 = Found Demo.c1)
    by reflexivity.
  split; [exact H|].
  destruct (deleted_conversation_is_gone Demo.db 1 Demo.c1 H)
    as [db' (Hd & _ & _ & Hagain & _ & Hchat)].
  exists db'. split; [exact Hd|]. split; [exact Hagain|].
  apply Hchat. reflexivity.
Defined.

Lemma retitle_keeps_key pk t c :
  Conversation.id (retitle pk t c) = Conversation.id c.
Proof. unfold retitle. destruct (Conversation.id c =? pk); reflexivity. Qed.

Lemma retitle_keeps_time pk t c :
  Conversation.created_at (retitle pk t c) = Conversation.created_at c.
Proof. unfold retitle. destruct (Conversation.id c =? pk); reflexivity. Qed.

Lemma conversation_get_retitled pk t cs k :
  conversation_get (map (retitle pk t) cs) k =
  match conversation_get cs k with
  | Found c => Found (retitle pk t c)
  | Absent => Absent
  | Overflow => Overflow
  end.
Proof.
  unfold conversation_get. destruct (fits_int64 k); [|reflexivity].
  induction cs as [|c cs IH]; simpl; [reflexivity|].
  rewrite retitle_keeps_key.
  destruct (Conversation.id c =? k); [reflexivity|exact IH].
Qed.

Lemma insert_newest_first_retitled pk t c l :
  insert_newest_first (retitle pk t c) (map (retitle pk t) l) =
  map (retitle pk t) (insert_newest_first c l).
Proof.
  induction l as [|y l IH]; simpl; [reflexivity|].
  rewrite !retitle_keeps_time.
  destruct (Conversation.created_at y <=? Conversation.created_at c); simpl;
    [reflexivity|].
  rewrite IH. reflexivity.
Qed.

(** X18. Renaming a stored conversation returns it with the new title
    and its key and timestamp unchanged; afterwards the key finds that
    renamed row, every other key finds what it found before, the
    messages are untouched, and the listing of conversations has the
    same order, with the title replaced. *)
Theorem rename_changes_the_title_only :
  forall db pk request conversation,
    conversation_get (conversations db) pk = Found conversation ->
    exists db',
      let new_title := TitleUpdateRequest.title request in
      let renamed :=
        Conversation.mk pk new_title
                        (Conversation.created_at conversation) in
      update_conversation_title db pk request = (db', Returns renamed) /\
      messages db' = messages db /\
      conversation_get (conversations db') pk = Found renamed /\
      (forall other, other <> pk ->
         conversation_get (conversations db') other =
         conversation_get (conversations db) other) /\
      get_conversations db' =
        map (retitle pk new_title) (get_conversations db).
Proof.
  intros db pk request conversation Hget.
  destruct (conversation_get_Some _ _ _ Hget) as [_ Hid].
  unfold update_conversation_title. rewrite Hget, Hid.
  eexists. cbv zeta. split; [reflexivity|].
  cbn [conversations messages]. split; [reflexivity|]. split.
  - rewrite conversation_get_retitled, Hget. simpl. unfold retitle.
    rewrite Hid, Z.eqb_refl. reflexivity.
  - split.
    + intros other Hneq. rewrite conversation_get_retitled.
      destruct (conversation_get (conversations db) other) as [c| |] eqn:G;
        try reflexivity.
      destruct (conversation_get_Some _ _ _ G) as [_ Hc]. simpl.
      unfold retitle. destruct (Conversation.id c =? pk) eqn:E;
        [lia|reflexivity].
    + unfold get_conversations. cbn [conversations]. clear Hget.
      induction (conversations db) as [|c l IH]; simpl; [reflexivity|].
      rewrite IH. apply insert_newest_first_retitled.
Qed.

Lemma rename_changes_the_title_only_witness :
  conversation_get (conversations Demo.db) 1 = Found Demo.c1 /\
  exists db',
    update_conversation_title Demo.db 1 Demo.rename =
      (db', Returns (Conversation.mk 1 "Greetings" 5)) /\
    messages db' = Sample.chat_table /\
    get_conversations db' = [Demo.c2; Conversation.mk 1 "Greetings" 5].
Proof.
  assert (H : conversation_get (conversations Demo.db) 1 = Found Demo.c1)
    by reflexivity.
  split; [exact H|].
  destruct (rename_changes_the_title_only Demo.db 1 Demo.rename Demo.c1 H)
    as [db' (Hu & Hm & _ & _ & Hl)].
  exists db'. split; [exact Hu|]. split; [exact Hm|].
  etransitivity; [exact Hl|reflexivity].
Defined.

(* ================================================================== *)
(** * 21. More on regeneration *)
(* ================================================================== *)

Lemma regenerate_on_target ollama st stamps tbl request original :
  NoDup (map id tbl) ->
  session_get tbl (RegenerateRequest.message_id request) = Found original ->
  role original = "user"%string ->
  regenerate_from_prompt ollama st stamps tbl request =
  StreamingResponse
    (mkOutcome
       (EvInitial
          (mkChatMessage (assigned_id st) "user"
             (RegenerateRequest.new_prompt request) (utcnow st)
             (conversation_id original))
          (conversation_id original)
        :: events
             (stream_ollama_response ollama stamps
                (filter (fun r => negb (to_delete (conversation_id original)
                                                  (created_at original) r))
                        tbl
                 ++ [mkChatMessage (assigned_id st) "user"
                       (RegenerateRequest.new_prompt request) (utcnow st)
                       (conversation_id original)])
                (ChatRequest.mk (RegenerateRequest.new_prompt request)
                   (conversation_id original)
                   (RegenerateRequest.model request))
                (conversation_id original)))
       (store
          (stream_ollama_response ollama stamps
             (filter (fun r => negb (to_delete (conversation_id original)
                                               (created_at original) r))
                     tbl
              ++ [mkChatMessage (assigned_id st) "user"
                    (RegenerateRequest.new_prompt request) (utcnow st)
                    (conversation_id original)])
             (ChatRequest.mk (RegenerateRequest.new_prompt request)
                (conversation_id original)
                (RegenerateRequest.model request))
             (conversation_id original)))
       (exit
          (stream_ollama_response ollama stamps
             (filter (fun r => negb (to_delete (conversation_id original)
                                               (created_at original) r))
                     tbl
              ++ [mkChatMessage (assigned_id st) "user"
                    (RegenerateRequest.new_prompt request) (utcnow st)
                    (conversation_id original)])
             (ChatRequest.mk (RegenerateRequest.new_prompt request)
                (conversation_id original)
                (RegenerateRequest.model request))
             (conversation_id original)))).
Proof.
  intros Hnd Hget Hrole. unfold regenerate_from_prompt.
  rewrite (rewind_Some tbl request st original Hnd Hget Hrole).
  reflexivity.
Qed.

Lemma filter_other_conversation cid0 t0 cid m :
  cid <> cid0 ->
  negb (to_delete cid0 t0 m) && in_conversation cid m
    = in_conversation cid m.
Proof.
  intro Hneq. unfold to_delete, in_conversation.
  destruct (conv_eqb (conversation_id m) cid) eqn:E;
    [|apply andb_false_r].
  apply conv_eqb_eq in E. rewrite E, (conv_eqb_neq _ _ Hneq). reflexivity.
Qed.

(** X19. A regeneration, with whatever its relay then does, touches
    the conversation of the original message only: every other
    conversation keeps exactly its rows, in the same order. *)
Theorem regeneration_leaves_other_conversations :
  forall ollama st stamps tbl request original cid,
    NoDup (map id tbl) ->
    session_get tbl (RegenerateRequest.message_id request) = Found original ->
    role original = "user"%string ->
    cid <> conversation_id original ->
    filter (in_conversation cid)
           (table_after (regenerate_from_prompt ollama st stamps tbl request))
      = filter (in_conversation cid) tbl /\
    get_conversation_messages
      (table_after (regenerate_from_prompt ollama st stamps tbl request)) cid
      = get_conversation_messages tbl cid.
Proof.
  intros ollama st stamps tbl request original cid Hnd Hget Hrole Hneq.
  assert (Hrows :
    filter (in_conversation cid)
           (table_after (regenerate_from_prompt ollama st stamps tbl request))
    = filter (in_conversation cid) tbl).
  { rewrite (regenerate_on_target ollama st stamps tbl request original
               Hnd Hget Hrole).
    cbn [table_after store].
    set (committed := _ ++ [_]). set (chat := ChatRequest.mk _ _ _).
    destruct (stream_inv ollama stamps committed chat
                (conversation_id original)) as (Hst & _).
    pose proof (stream_inserts_assistant_rows ollama stamps committed chat
                  (conversation_id original)) as Hrows.
    rewrite Hst. unfold committed. rewrite !filter_app, filter_filter.
    rewrite (filter_ext _ _ (fun m => filter_other_conversation
                                        (conversation_id original)
                                        (created_at original) cid m Hneq)).
    rewrite (filter_none _ (in_conversation cid) (done_messages _)).
    - simpl. unfold in_conversation at 2. simpl.
      rewrite (conv_eqb_neq (conversation_id original) cid)
        by (intro E; apply Hneq; symmetry; exact E).
      rewrite !app_nil_r. reflexivity.
    - intros m Hm. rewrite Forall_forall in Hrows.
      destruct (Hrows m Hm) as (_ & Hc & _).
      unfold in_conversation. rewrite Hc. apply conv_eqb_neq.
      intro E. apply Hneq. symmetry. exact E. }
  split; [exact Hrows|].
  unfold get_conversation_messages. rewrite Hrows. reflexivity.
Qed.

Lemma regeneration_leaves_other_conversations_witness :
  NoDup (map id Sample.chat_table) /\
  session_get Sample.chat_table
    (RegenerateRequest.message_id Sample.regen) = Found Sample.m3 /\
  role Sample.m3 = "user"%string /\
  Some 2 <> conversation_id Sample.m3 /\
  get_conversation_messages
    (table_after (regenerate_from_prompt Demo.good Sample.stamp
                    Sample.regen_stamps Sample.chat_table Sample.regen))
    (Some 2) = [Sample.other].
Proof.
  assert (H1 : NoDup (map id Sample.chat_table))
    by (simpl; repeat constructor; simpl; intuition discriminate).
  assert (H2 : session_get Sample.chat_table
                 (RegenerateRequest.message_id Sample.regen)
               = Found Sample.m3) by reflexivity.
  assert (H3 : role Sample.m3 = "user"%string) by reflexivity.
  assert (H4 : Some 2 <> conversation_id Sample.m3)
    by (simpl; discriminate).
  split; [exact H1|]. split; [exact H2|]. split; [exact H3|].
  split; [exact H4|].
  etransitivity;
    [exact (proj2 (regeneration_leaves_other_conversations
                     Demo.good Sample.stamp Sample.regen_stamps
                     Sample.chat_table Sample.regen Sample.m3 (Some 2)
                     H1 H2 H3 H4))
    |reflexivity].
Defined.

(** X20. A regeneration from a stored user message with timestamp
    [t0], when the backend answers 200 with one flagged line, the
    stream ends without an exception and the clock runs forward: the
    conversation lists what it listed before [t0], then the new user
    message, then the assistant message, whose content is the
    fragments sent between the initial event and the done event. *)
Theorem finished_regeneration_lists_prefix_prompt_reply :
  forall ollama st stamps tbl request original out,
    NoDup (map id tbl) ->
    session_get tbl (RegenerateRequest.message_id request) = Found original ->
    role original = "user"%string ->
    created_at original < utcnow st ->
    utcnow st <= utcnow (stamps 0%nat) ->
    let cid := conversation_id original in
    let t0 := created_at original in
    let new_user_message :=
      mkChatMessage (assigned_id st) "user"
        (RegenerateRequest.new_prompt request) (utcnow st) cid in
    let committed :=
      filter (fun m => negb (to_delete cid t0 m)) tbl
        ++ [new_user_message] in
    let chat_request :=
      ChatRequest.mk (RegenerateRequest.new_prompt request) cid
                     (RegenerateRequest.model request) in
    let response := ollama (payload_for committed chat_request cid) in
    Response.status_code response = 200 ->
    done_lines (Response.aiter_lines response) = 1%nat ->
    regenerate_from_prompt ollama st stamps tbl request
      = StreamingResponse out ->
    exit out = Finished ->
    exists pre post,
      let reply := assistant_row stamps cid 0 (fragments pre) in
      events out = EvInitial new_user_message cid
                     :: pre ++ EvDone reply :: post /\
      store out = committed ++ [reply] /\
      get_conversation_messages (store out) cid =
        filter (fun m => created_at m <? t0)
               (get_conversation_messages tbl cid)
          ++ [new_user_message; reply].
Proof.
  intros ollama st stamps tbl request original out Hnd Hget Hrole
         Hclock Hclock' cid t0 new committed chat response Hs H1 Hrun Hex.
  rewrite (regenerate_on_target ollama st stamps tbl request original
             Hnd Hget Hrole) in Hrun.
  fold cid t0 new committed chat in Hrun.
  injection Hrun as <-. cbn [exit events store] in *.
  destruct (relay_single_reply ollama stamps committed chat cid Hs Hex H1)
    as [pre [post [Hev Hst]]].
  exists pre, post. cbv zeta. rewrite Hev, Hst.
  split; [reflexivity|]. split; [reflexivity|].
  rewrite listing_snoc.
  - unfold committed. rewrite conversation_after_rewind;
      [|reflexivity|exact Hclock].
    rewrite <- app_assoc. reflexivity.
  - reflexivity.
  - unfold committed. apply Forall_app. split.
    + apply Forall_forall. intros m Hm Hc.
      apply filter_In in Hm. destruct Hm as [_ Hm].
      unfold to_delete in Hm. rewrite Hc in Hm. simpl in Hm.
      unfold t0 in Hm. apply negb_true_iff in Hm. simpl. lia.
    + constructor; [|constructor]. intros _. simpl. exact Hclock'.
Qed.

Lemma finished_regeneration_lists_prefix_prompt_reply_witness :
  let new_user_message := mkChatMessage 6 "user" "Other" 500 (Some 1) in
  let out :=
    mkOutcome
      [EvInitial new_user_message (Some 1); EvContent "Hel"; EvContent "lo";
       EvDone (mkChatMessage 7 "assistant" "Hello" 600 (Some 1))]
      [Sample.m1; Sample.m2; Sample.other; new_user_message;
       mkChatMessage 7 "assistant" "Hello" 600 (Some 1)]
      Finished in
  regenerate_from_prompt Demo.good Sample.stamp Sample.regen_stamps
    Sample.chat_table Sample.regen = StreamingResponse out /\
  exists pre post,
    events out = EvInitial new_user_message (Some 1)
                   :: pre ++ EvDone (assistant_row Sample.regen_stamps
                                       (Some 1) 0 (fragments pre)) :: post /\
    get_conversation_messages (store out) (Some 1) =
      [Sample.m1; Sample.m2]
        ++ [new_user_message;
            assistant_row Sample.regen_stamps (Some 1) 0 (fragments pre)].
Proof.
  intros new_user_message out.
  assert (H : regenerate_from_prompt Demo.good Sample.stamp
                Sample.regen_stamps Sample.chat_table Sample.regen
              = StreamingResponse out) by reflexivity.
  split; [exact H|].
  assert (H1 : NoDup (map id Sample.chat_table))
    by (simpl; repeat constructor; simpl; intuition discriminate).
  assert (H4 : created_at Sample.m3 < utcnow Sample.stamp) by (simpl; lia).
  assert (H5 : utcnow Sample.stamp <= utcnow (Sample.regen_stamps 0%nat))
    by (simpl; lia).
  destruct (finished_regeneration_lists_prefix_prompt_reply
              Demo.good Sample.stamp Sample.regen_stamps Sample.chat_table
              Sample.regen Sample.m3 out H1 eq_refl eq_refl H4 H5
              eq_refl eq_refl H eq_refl)
    as [pre [post (He & _ & Hl)]].
  exists pre, post. split; [exact He|exact Hl].
Defined.

Lemma NoDup_keys_filter (p : ChatMessage -> bool) tbl :
  NoDup (map id tbl) -> NoDup (map id (filter p tbl)).
Proof.
  induction tbl as [|m tbl IH]; simpl; intro H; [constructor|].
  inversion H as [|? ? Hnotin Hnd]; subst.
  destruct (p m); simpl; [|apply IH, Hnd].
  constructor; [|apply IH, Hnd].
  intro Hin. apply Hnotin. apply in_map_iff in Hin.
  destruct Hin as [x [Hx Hin]]. apply filter_In in Hin.
  apply in_map_iff. exists x. split; [exact Hx|apply Hin].
Qed.

(** X21. The rewind keeps primary keys unique provided the database
    gives the new user message a key that no remaining row has; the key
    of a row that the rewind deleted is such a key. *)
Theorem rewind_keeps_keys_unique :
  forall tbl request st original,
    NoDup (map id tbl) ->
    session_get tbl (RegenerateRequest.message_id request) = Found original ->
    role original = "user"%string ->
    ~ In (assigned_id st)
         (map id (filter (fun m => negb (to_delete (conversation_id original)
                                                   (created_at original) m))
                         tbl)) ->
    exists rw,
      rewind tbl request st = Returns rw /\
      NoDup (map id (rw_table rw)) /\
      ~ In (id original)
           (map id (filter (fun m => negb (to_delete (conversation_id original)
                                                     (created_at original) m))
                           tbl)).
Proof.
  intros tbl request st original Hnd Hget Hrole Hfresh.
  rewrite (rewind_Some tbl request st original Hnd Hget Hrole).
  eexists. split; [reflexivity|]. cbn [rw_table]. split.
  - rewrite map_app. simpl.
    eapply Permutation_NoDup; [apply Permutation_cons_append|].
    constructor; [exact Hfresh|]. apply NoDup_keys_filter, Hnd.
  - rewrite <- (delete_selected _ _ Hnd).
    destruct (session_get_Some _ _ _ Hget) as [Hin _].
    apply deleted_key_is_gone; [exact Hin|apply to_delete_original].
Qed.

Lemma rewind_keeps_keys_unique_witness :
  NoDup (map id Sample.turn_table) /\
  session_get Sample.turn_table
    (RegenerateRequest.message_id Sample.again) = Found Sample.m1 /\
  role Sample.m1 = "user"%string /\
  assigned_id Sample.first_stamp = id Sample.m1 /\
  exists rw,
    rewind Sample.turn_table Sample.again Sample.first_stamp = Returns rw /\
    NoDup (map id (rw_table rw)).
Proof.
  assert (H1 : NoDup (map id Sample.turn_table))
    by (simpl; repeat constructor; simpl; intuition discriminate).
  assert (H2 : session_get Sample.turn_table
                 (RegenerateRequest.message_id Sample.again)
               = Found Sample.m1) by reflexivity.
  assert (H3 : role Sample.m1 = "user"%string) by reflexivity.
  assert (H4 : ~ In (assigned_id Sample.first_stamp)
                    (map id (filter
                               (fun m => negb (to_delete
                                                 (conversation_id Sample.m1)
                                                 (created_at Sample.m1) m))
                               Sample.turn_table)))
    by (simpl; intros []).
  split; [exact H1|]. split; [exact H2|]. split; [exact H3|].
  split; [reflexivity|].
  destruct (rewind_keeps_keys_unique Sample.turn_table Sample.again
              Sample.first_stamp Sample.m1 H1 H2 H3 H4)
    as [rw (Hrw & Hnd & _)].
  exists rw. split; [exact Hrw|exact Hnd].
Defined.
